(** * certvalidator.ocsp_client: fetching an OCSP response

    A shallow embedding of [src/certvalidator/ocsp_client.py] and the
    properties of [fetch]: argument checks, request construction, cache
    consultation, nonce verification and fail-over between the OCSP
    endpoints of a certificate.

    Python is modelled with Python 3 semantics.  Effects (cache, network,
    [os.urandom], exceptions) are threaded through a state-and-error monad
    over an explicit [world]. *)

From Stdlib Require Import List String ZArith Bool Arith Lia.
From Stdlib.Strings Require Import Byte.
Import ListNotations.
Open Scope string_scope.

Set Implicit Arguments.

(** ** Values *)

Definition bytes := list byte.

Definition bytes_eq_dec : forall a b : bytes, {a = b} + {a <> b} :=
  list_eq_dec Byte.byte_eq_dec.

Definition bytes_eqb (a b : bytes) : bool :=
  if bytes_eq_dec a b then true else false.

(** ** DER (asn1crypto.core) *)

Definition byte_of_N (n : N) : byte :=
  match Byte.of_N n with Some b => b | None => x00 end.

(** The base-256 digits of [n], most significant first, in front of
    [acc]. *)
Fixpoint base256 (fuel : nat) (n : N) (acc : bytes) : bytes :=
  match fuel with
  | O => acc
  | S fuel' =>
      if N.eqb n 0 then acc
      else base256 fuel' (N.div n 256) (byte_of_N (N.modulo n 256) :: acc)
  end.

(** The length octets of a definite-length encoding: one octet below
    128, otherwise the number of digits and the digits. *)
Definition der_length (n : nat) : bytes :=
  if Nat.ltb n 128 then [byte_of_N (N.of_nat n)]
  else
    let digits := base256 n (N.of_nat n) [] in
    byte_of_N (N.of_nat (128 + List.length digits)) :: digits.

(** [core.OctetString(contents).dump()]: tag 4, length, contents. *)
Definition OctetString_dump (contents : bytes) : bytes :=
  (x04 :: der_length (List.length contents) ++ contents)%list.

(** [asn1crypto.x509.Certificate], reduced to the attributes that
    [fetch] reads.  [issuer] is the issuer's distinguished name as the
    subject certificate records it and [public_key] the certificate's
    public key info, both as the byte strings asn1crypto digests. *)
Record Certificate := {
  issuer : bytes;
  public_key : bytes;
  serial_number : Z;
  ocsp_urls : list string
}.

(** The Python values a caller can pass to [fetch]. *)
#[warnings="-register-all"]
Inductive pyval :=
| PyNone
| PyBool (b : bool)
| PyInt (z : Z)
| PyStr (s : string)
| PyBytes (b : bytes)
| PyList (l : list pyval)
| PyCert (c : Certificate).

(** ** Exceptions *)

Inductive exn_class :=
| TypeError
| ValueError
| KeyError
| URLError
| HTTPError
| SocketError
| OCSPValidationError.

Record exn := Exn { exn_cls : exn_class; exn_msg : string }.

Definition exn_class_eqb (c d : exn_class) : bool :=
  match c, d with
  | TypeError, TypeError | ValueError, ValueError | KeyError, KeyError
  | URLError, URLError | HTTPError, HTTPError | SocketError, SocketError
  | OCSPValidationError, OCSPValidationError => true
  | _, _ => false
  end.

(** Modelled from the spec: [errors.py], which declares
    [OCSPValidationError], is not among the sources.  Section 7 of the
    spec lists ValidationError as a kind of its own next to
    TransportError, so the class is not a subclass of [URLError].  In
    the Python library [HTTPError] is the one subclass of [URLError]. *)
Definition issubclass (c d : exn_class) : bool :=
  match c, d with
  | HTTPError, URLError => true
  | _, _ => exn_class_eqb c d
  end.

Definition isinstance_exn (e : exn) (c : exn_class) : bool :=
  issubclass (exn_cls e) c.

(** ** OCSP structures (asn1crypto.ocsp) *)

Inductive DigestAlgorithm := sha1 | sha256.

Definition DigestAlgorithm_name (a : DigestAlgorithm) : string :=
  match a with sha1 => "sha1" | sha256 => "sha256" end.

Record CertId := {
  hash_algorithm : DigestAlgorithm;
  issuer_name_hash : bytes;
  issuer_key_hash : bytes;
  cid_serial_number : Z
}.

(** [extn_value] holds the bytes [x] of a value [core.OctetString(x)]
    given for the field: they are what [extn_value.parsed.native], and so
    [nonce_value.native], returns. *)
Record TBSRequestExtension := {
  extn_id : string;
  critical : bool;
  extn_value : bytes
}.

(** [OCSPRequest({'tbs_request': TBSRequest({'request_list': [Request({'req_cert': c})]})})]
    with the optional [request_extensions] field of the TBSRequest. *)
Record OCSPRequest := {
  request_list : list CertId;
  request_extensions : option (list TBSRequestExtension)
}.

(** [OCSPRequest.nonce_value]: the value of the extension named nonce,
    [None] when there is none. *)
Definition nonce_value (r : OCSPRequest) : option bytes :=
  match request_extensions r with
  | None => None
  | Some exts =>
      fold_left
        (fun acc e => if String.eqb (extn_id e) "nonce" then Some (extn_value e) else acc)
        exts None
  end.

(** A decoded [OCSPResponse]: its echoed nonce, if any, and the rest of
    the response, which [fetch] does not look at. *)
Record OCSPResponse := {
  resp_nonce_value : option bytes;
  resp_rest : bytes
}.

(** ** HTTP requests and responses (cache_manager) *)

(** [cache_manager.Request(method, url, data=..., headers=...)] *)
Record Request := mkRequest {
  req_method : string;
  req_url : string;
  req_data : bytes;
  req_headers : list (string * string)
}.

Definition Request_eq_dec : forall a b : Request, {a = b} + {a <> b}.
Proof.
  decide equality; try apply string_dec; try apply bytes_eq_dec.
  apply list_eq_dec. decide equality; apply string_dec.
Defined.

Definition Request_eqb (a b : Request) : bool :=
  if Request_eq_dec a b then true else false.

(** Modelled from the spec: [cache_manager.CachedResponse] is not among
    the sources.  By section 3 a response is either cached, retrieved
    from the Cache Bridge, or fresh, retrieved over the network;
    [content] is its body. *)
Inductive Response :=
| FreshResponse (content : bytes)
| CachedResponse (content : bytes).

Definition content (r : Response) : bytes :=
  match r with FreshResponse c | CachedResponse c => c end.

Definition isinstance_CachedResponse (r : Response) : bool :=
  match r with CachedResponse _ => true | FreshResponse _ => false end.

(** ** The world: cache, network, entropy, and a trace of the I/O *)

Inductive event :=
| EvHas (key : Request)
| EvGet (key : Request)
| EvSend (request : Request) (timeout : Z)
| EvPut (original_request new_request_key : Request) (body : bytes).

(** [w_net k r t] is what the network answers to the [k]-th exchange of
    the run when it carries request [r] with timeout [t]; [w_entropy] is
    the tape [os.urandom] reads, [w_drawn] how much of it is used.
    [w_trace] lists the cache and network operations in the order they
    happen. *)
Record world := World {
  w_cache : list (Request * bytes);
  w_net : nat -> Request -> Z -> exn + bytes;
  w_sends : nat;
  w_entropy : nat -> byte;
  w_drawn : nat;
  w_trace : list event
}.

Definition log (ev : event) (w : world) : world :=
  World (w_cache w) (w_net w) (w_sends w) (w_entropy w) (w_drawn w) (w_trace w ++ [ev]).

(** ** The monad *)

Definition M (A : Type) : Type := world -> (exn + A) * world.

Definition ret {A} (a : A) : M A := fun w => (inr a, w).

Definition raise {A} (e : exn) : M A := fun w => (inl e, w).

Definition bind {A B} (m : M A) (k : A -> M B) : M B :=
  fun w =>
    match m w with
    | (inl e, w') => (inl e, w')
    | (inr a, w') => k a w'
    end.

Notation "x <- m ;; k" := (bind m (fun x => k))
  (at level 61, m at next level, right associativity).

(** [try: m except (c) as e: h e] *)
Definition try_except {A} (m : M A) (c : exn_class) (h : exn -> M A) : M A :=
  fun w =>
    match m w with
    | (inl e, w') => if isinstance_exn e c then h e w' else (inl e, w')
    | (inr a, w') => (inr a, w')
    end.

(** [raise v] for a variable that may still hold [None]: Python then
    raises a [TypeError] of its own. *)
Definition raise_value {A} (v : option exn) : M A :=
  match v with
  | Some e => raise e
  | None => raise (Exn TypeError "exceptions must derive from BaseException")
  end.

Definition lift {A} (r : exn + A) : M A := fun w => (r, w).

(** [os.urandom(n)] *)
Definition os_urandom (n : nat) : M bytes :=
  fun w =>
    (inr (map (w_entropy w) (seq (w_drawn w) n)),
     World (w_cache w) (w_net w) (w_sends w) (w_entropy w) (w_drawn w + n) (w_trace w)).

(** ** What the module imports

    The DER codec and the digests of asn1crypto, [__version__] of
    [version.py], [type_name] of [_types.py] and Python's [repr] are not
    part of this file's source; the development is parametric in them. *)
Class Imports := {
  hashlib_sha1 : bytes -> bytes;
  hashlib_sha256 : bytes -> bytes;
  OCSPRequest_dump : OCSPRequest -> bytes;
  OCSPResponse_load : bytes -> exn + OCSPResponse;
  __version__ : string;
  type_name : pyval -> string;
  repr : pyval -> string
}.

(** ** The Cache Bridge *)

Fixpoint cache_lookup (key : Request) (c : list (Request * bytes)) : option bytes :=
  match c with
  | [] => None
  | (k, v) :: c' => if Request_eqb key k then Some v else cache_lookup key c'
  end.

(** Modelled from the spec: [cache_manager] is not among the sources.
    Sections 4.4 and 6 give its contract: [has(key)], [get(key)] returning
    the cached payload, and [put(original_request, cache_key, response)]
    storing the raw response bytes under the key.  The key is the
    [Request] that [fetch] passes. *)
Definition is_request_cached (key : Request) : M bool :=
  fun w =>
    (inr (match cache_lookup key (w_cache w) with Some _ => true | None => false end),
     log (EvHas key) w).

(** Modelled from the spec: see [is_request_cached]. *)
Definition get_from_cache (key : Request) : M Response :=
  fun w =>
    match cache_lookup key (w_cache w) with
    | Some body => (inr (CachedResponse body), log (EvGet key) w)
    | None => (inl (Exn KeyError "request is not cached"), log (EvGet key) w)
    end.

(** Modelled from the spec: see [is_request_cached]. *)
Definition replace_key (original_request new_request_key : Request) (response : Response)
  : M unit :=
  fun w =>
    (inr tt,
     World ((new_request_key, content response) :: w_cache w) (w_net w) (w_sends w)
           (w_entropy w) (w_drawn w)
           (w_trace w ++ [EvPut original_request new_request_key (content response)])).

(** Modelled from the spec: [cache_manager.session] is the transport;
    preparing a request involves no I/O. *)
Definition session_prepare_request (request : Request) : M Request := ret request.

(** Modelled from the spec: one network exchange, which returns the
    response body or raises what the transport raises. *)
Definition session_send (prepped : Request) (timeout : Z) : M Response :=
  fun w =>
    let w' := World (w_cache w) (w_net w) (S (w_sends w)) (w_entropy w) (w_drawn w)
                    (w_trace w ++ [EvSend prepped timeout]) in
    match w_net w (w_sends w) prepped timeout with
    | inl e => (inl e, w')
    | inr body => (inr (FreshResponse body), w')
    end.

(** ** ocsp_client.py *)

Section OcspClient.

Context {I : Imports}.

Definition _get_ocsp_request_obj (cert_id : CertId) (use_nonce : bool) : M OCSPRequest :=
  if use_nonce then
    r <- os_urandom 16 ;;
    let nonce_extension :=
      {| extn_id := "nonce"; critical := false; extn_value := OctetString_dump r |} in
    ret {| request_list := [cert_id]; request_extensions := Some [nonce_extension] |}
  else
    ret {| request_list := [cert_id]; request_extensions := None |}.

Definition _get_response (request request_cache_key : Request) (timeout : Z) : M Response :=
  hit <- is_request_cached request_cache_key ;;
  if hit then get_from_cache request_cache_key
  else
    prepped <- session_prepare_request request ;;
    response <- session_send prepped timeout ;;
    _ <- replace_key request request_cache_key response ;;
    ret response.

(** The argument checks of [fetch], lines 77 to 92. *)

Definition expect_Certificate (name : string) (v : pyval) : M Certificate :=
  match v with
  | PyCert c => ret c
  | _ => raise (Exn TypeError
           (name ++ " must be an instance of asn1crypto.x509.Certificate, not " ++ type_name v))
  end.

Definition dquote : string := String (Ascii.ascii_of_nat 34) EmptyString.

Definition hash_algo_message : string :=
  "hash_algo must be one of " ++ dquote ++ "sha1" ++ dquote ++ ", "
    ++ dquote ++ "sha256" ++ dquote ++ ", not ".

(** [hash_algo not in set(['sha1', 'sha256'])]; a list cannot be hashed,
    so the membership test itself raises. *)
Definition expect_hash_algo (v : pyval) : M DigestAlgorithm :=
  match v with
  | PyStr s =>
      if String.eqb s "sha1" then ret sha1
      else if String.eqb s "sha256" then ret sha256
      else raise (Exn ValueError (hash_algo_message ++ repr v))
  | PyList _ => raise (Exn TypeError "unhashable type: 'list'")
  | _ => raise (Exn ValueError (hash_algo_message ++ repr v))
  end.

Definition expect_bool (v : pyval) : M bool :=
  match v with
  | PyBool b => ret b
  | _ => raise (Exn TypeError ("nonce must be a bool, not " ++ type_name v))
  end.

Definition resolve_user_agent (v : pyval) : M string :=
  match v with
  | PyNone => ret ("certvalidator " ++ __version__)
  | PyStr s => ret s
  | _ => raise (Exn TypeError ("user_agent must be a unicode string, not " ++ type_name v))
  end.

(** [getattr(x, hash_algo)] on a Name or a PublicKeyInfo: the digest of
    that name. *)
Definition getattr_digest (x : bytes) (hash_algo : DigestAlgorithm) : bytes :=
  match hash_algo with
  | sha1 => hashlib_sha1 x
  | sha256 => hashlib_sha256 x
  end.

(** Lines 94 to 99. *)
Definition make_cert_id (c i : Certificate) (hash_algo : DigestAlgorithm) : CertId :=
  {| hash_algorithm := hash_algo;
     issuer_name_hash := getattr_digest (issuer c) hash_algo;
     issuer_key_hash := getattr_digest (public_key i) hash_algo;
     cid_serial_number := serial_number c |}.

Definition make_headers (user_agent : string) : list (string * string) :=
  [("Accept", "application/ocsp-response");
   ("User-Agent", user_agent);
   ("Content-Type", "application/ocsp-request")].

(** [request_nonce and response_nonce and
    request_nonce.native != response_nonce.native]: an asn1crypto value
    is truthy, [None] is not. *)
Definition nonces_differ (request_nonce response_nonce : option bytes) : bool :=
  match request_nonce, response_nonce with
  | Some a, Some b => negb (bytes_eqb a b)
  | _, _ => false
  end.

Definition nonce_mismatch_message : string :=
  "Unable to verify OCSP response since the request and response nonces do not match".

(** The body of the [try], lines 107 to 119. *)
Definition try_endpoint (user_agent : string) (timeout : Z)
    (ocsp_request_no_nonce ocsp_request : OCSPRequest) (ocsp_url : string) : M OCSPResponse :=
  let headers := make_headers user_agent in
  let request_no_nonce :=
    mkRequest "POST" ocsp_url (OCSPRequest_dump ocsp_request_no_nonce) headers in
  let request := mkRequest "POST" ocsp_url (OCSPRequest_dump ocsp_request) headers in
  response <- _get_response request request_no_nonce timeout ;;
  ocsp_response <- lift (OCSPResponse_load (content response)) ;;
  let request_nonce := nonce_value ocsp_request in
  let response_nonce := resp_nonce_value ocsp_response in
  if negb (isinstance_CachedResponse response) && nonces_differ request_nonce response_nonce
  then raise (Exn OCSPValidationError nonce_mismatch_message)
  else ret ocsp_response.

(** The [for] loop with [last_e], lines 104 to 124. *)
Fixpoint fetch_loop (user_agent : string) (timeout : Z)
    (ocsp_request_no_nonce ocsp_request : OCSPRequest)
    (urls : list string) (last_e : option exn) : M OCSPResponse :=
  match urls with
  | [] => raise_value last_e
  | ocsp_url :: rest =>
      try_except
        (try_endpoint user_agent timeout ocsp_request_no_nonce ocsp_request ocsp_url)
        URLError
        (fun e => fetch_loop user_agent timeout ocsp_request_no_nonce ocsp_request rest (Some e))
  end.

Definition fetch (cert issuer hash_algo nonce user_agent : pyval) (timeout : Z)
  : M OCSPResponse :=
  c <- expect_Certificate "cert" cert ;;
  i <- expect_Certificate "issuer" issuer ;;
  algo <- expect_hash_algo hash_algo ;;
  use_nonce <- expect_bool nonce ;;
  ua <- resolve_user_agent user_agent ;;
  let cert_id := make_cert_id c i algo in
  ocsp_request_no_nonce <- _get_ocsp_request_obj cert_id false ;;
  ocsp_request <- (if use_nonce then _get_ocsp_request_obj cert_id true
                   else ret ocsp_request_no_nonce) ;;
  fetch_loop ua timeout ocsp_request_no_nonce ocsp_request (ocsp_urls c) None.

End OcspClient.

(** ** Vocabulary of the statements *)

Section Vocabulary.

Context {I : Imports}.

(** Well-typed arguments, as a caller writes them. *)
Definition hash_algo_arg (a : DigestAlgorithm) : pyval := PyStr (DigestAlgorithm_name a).

Definition user_agent_arg (ua : option string) : pyval :=
  match ua with None => PyNone | Some s => PyStr s end.

Definition resolved_user_agent (ua : option string) : string :=
  match ua with None => "certvalidator " ++ __version__ | Some s => s end.

(** The two request objects of a call; [n] is the value of the nonce
    extension. *)
Definition no_nonce_request (cid : CertId) : OCSPRequest :=
  {| request_list := [cid]; request_extensions := None |}.

Definition nonce_request (cid : CertId) (n : bytes) : OCSPRequest :=
  {| request_list := [cid];
     request_extensions := Some [ {| extn_id := "nonce"; critical := false; extn_value := n |} ] |}.

(** The [n] bytes that the next [os.urandom n] returns in [w]. *)
Definition entropy (w : world) (n : nat) : bytes := map (w_entropy w) (seq (w_drawn w) n).

Definition sent_request (cid : CertId) (use_nonce : bool) (w : world) : OCSPRequest :=
  if use_nonce then nonce_request cid (OctetString_dump (entropy w 16))
  else no_nonce_request cid.

(** The cache key and the request on the wire for one endpoint. *)
Definition cache_key (ua : string) (cid : CertId) (url : string) : Request :=
  mkRequest "POST" url (OCSPRequest_dump (no_nonce_request cid)) (make_headers ua).

Definition wire_request (ua : string) (o : OCSPRequest) (url : string) : Request :=
  mkRequest "POST" url (OCSPRequest_dump o) (make_headers ua).

(** The endpoints [pre] are not cached and the network answers the
    exchanges [n], [n+1], ... with the transport errors [errs]. *)
Fixpoint endpoints_down (cache : list (Request * bytes)) (net : nat -> Request -> Z -> exn + bytes)
    (t : Z) (key req : string -> Request) (n : nat) (pre : list string) (errs : list exn) : Prop :=
  match pre, errs with
  | [], [] => True
  | url :: pre', e :: errs' =>
      cache_lookup (key url) cache = None /\
      net n (req url) t = inl e /\
      isinstance_exn e URLError = true /\
      endpoints_down cache net t key req (S n) pre' errs'
  | _, _ => False
  end.

(** The trace that one failed attempt leaves. *)
Definition failed_attempt (t : Z) (key req : string -> Request) (url : string) : list event :=
  [EvHas (key url); EvSend (req url) t].

(** The world after the attempts on [pre] have failed. *)
Definition after_failures (t : Z) (key req : string -> Request) (pre : list string) (w : world)
  : world :=
  World (w_cache w) (w_net w) (w_sends w + List.length pre) (w_entropy w) (w_drawn w)
        (w_trace w ++ flat_map (failed_attempt t key req) pre).

Definition last_error (errs : list exn) (last_e : option exn) : option exn :=
  fold_left (fun _ e => Some e) errs last_e.

(** The key a cache operation is about. *)
Definition event_key (ev : event) : option Request :=
  match ev with
  | EvHas k | EvGet k | EvPut _ k _ => Some k
  | EvSend _ _ => None
  end.

(** What goes over the wire in an event. *)
Definition event_sent (ev : event) : option Request :=
  match ev with
  | EvSend r _ | EvPut r _ _ => Some r
  | EvHas _ | EvGet _ => None
  end.

(** An event of a call that uses [key] for the cache and [req] on the
    wire, at one of the endpoints [urls]. *)
Definition event_of_call (key req : string -> Request) (t : Z) (urls : list string) (ev : event)
  : Prop :=
  exists url, In url urls /\
    match ev with
    | EvHas k | EvGet k => k = key url
    | EvSend r t' => r = req url /\ t' = t
    | EvPut r k _ => r = req url /\ k = key url
    end.


(** The operations of one attempt on [url]: a lookup followed by a read
    of the cache, or by an exchange, or by an exchange and a store. *)
Definition attempt_block (key req : string -> Request) (t : Z) (url : string)
    (block : list event) : Prop :=
  block = [EvHas (key url); EvGet (key url)] \/
  block = [EvHas (key url); EvSend (req url) t] \/
  exists body, block = [EvHas (key url); EvSend (req url) t; EvPut (req url) (key url) body].

(** A trace made of one attempt on each of the endpoints, in order. *)
Inductive attempts (key req : string -> Request) (t : Z) : list string -> list event -> Prop :=
| attempts_nil : attempts key req t [] []
| attempts_cons url urls block rest :
    attempt_block key req t url block ->
    attempts key req t urls rest ->
    attempts key req t (url :: urls) (block ++ rest).

(** The operations of the attempt on [url] in the world [w]: a lookup,
    then a read on a hit, an exchange on a miss, and a store when the
    exchange brought a body. *)
Definition first_block (key req : string -> Request) (t : Z) (w : world) (url : string)
  : list event :=
  match cache_lookup (key url) (w_cache w) with
  | Some _ => [EvHas (key url); EvGet (key url)]
  | None =>
      match w_net w (w_sends w) (req url) t with
      | inl _ => [EvHas (key url); EvSend (req url) t]
      | inr body => [EvHas (key url); EvSend (req url) t; EvPut (req url) (key url) body]
      end
  end.

(** The trace [new] of a call from [w] over [urls] starts with the
    attempt on the first endpoint; it is empty when there is none. *)
Definition first_attempt (key req : string -> Request) (t : Z) (w : world)
    (urls : list string) (new : list event) : Prop :=
  match urls with
  | [] => new = []
  | url :: _ => exists rest, new = (first_block key req t w url ++ rest)%list
  end.

(** The world after a miss at [url] that the network answered with
    [body]. *)
Definition after_fresh (ua : string) (t : Z) (cid : CertId) (o : OCSPRequest)
    (url : string) (body : bytes) (w : world) : world :=
  World ((cache_key ua cid url, body) :: w_cache w) (w_net w) (S (w_sends w)) (w_entropy w)
        (w_drawn w)
        (w_trace w ++ [EvHas (cache_key ua cid url); EvSend (wire_request ua o url) t;
                       EvPut (wire_request ua o url) (cache_key ua cid url) body]).

(** The world once the request objects are built. *)
Definition after_nonce (use_nonce : bool) (w : world) : world :=
  if use_nonce
  then World (w_cache w) (w_net w) (w_sends w) (w_entropy w) (w_drawn w + 16) (w_trace w)
  else w.

(** The world in which the loop of a call reaches the endpoint after
    [pre]. *)
Definition reached (c i : Certificate) (a : DigestAlgorithm) (b : bool) (ua : option string)
    (t : Z) (w : world) (pre : list string) : world :=
  let cid := make_cert_id c i a in
  after_failures t (cache_key (resolved_user_agent ua) cid)
    (wire_request (resolved_user_agent ua) (sent_request cid b w)) pre (after_nonce b w).

(** The world after the endpoint behind [pre] answered with [body]. *)
Definition answered (c i : Certificate) (a : DigestAlgorithm) (b : bool) (ua : option string)
    (t : Z) (w : world) (pre : list string) (url : string) (body : bytes) : world :=
  let cid := make_cert_id c i a in
  let key := cache_key (resolved_user_agent ua) cid in
  let req := wire_request (resolved_user_agent ua) (sent_request cid b w) in
  World ((key url, body) :: w_cache w) (w_net w) (S (w_sends w + List.length pre))
    (w_entropy w) (w_drawn w + (if b then 16 else 0))
    (w_trace w ++ flat_map (failed_attempt t key req) pre
       ++ [EvHas (key url); EvSend (req url) t; EvPut (req url) (key url) body]).

(** Predicates on the arguments of [fetch]. *)

Definition is_Certificate (v : pyval) : bool :=
  match v with PyCert _ => true | _ => false end.

Definition is_recognized_hash_algo (v : pyval) : bool :=
  match v with
  | PyStr s => String.eqb s "sha1" || String.eqb s "sha256"
  | _ => false
  end.

Definition is_bool (v : pyval) : bool :=
  match v with PyBool _ => true | _ => false end.

Definition is_text (v : pyval) : bool :=
  match v with PyStr _ => true | _ => false end.

Definition is_None (v : pyval) : bool :=
  match v with PyNone => true | _ => false end.

Definition InvalidArgument (e : exn) : Prop :=
  exn_cls e = TypeError \/ exn_cls e = ValueError.

End Vocabulary.

(** ** A toy instance

    A toy codec and toy digests stand in for asn1crypto, and a network
    that answers by endpoint. *)

Definition toy_load (body : bytes) : exn + OCSPResponse :=
  match body with
  | x00 :: rest => inr {| resp_nonce_value := None; resp_rest := rest |}
  | _ :: len :: rest =>
      inr {| resp_nonce_value := Some (firstn (Byte.to_nat len) rest);
             resp_rest := skipn (Byte.to_nat len) rest |}
  | _ => inl (Exn ValueError "Insufficient data")
  end.

Definition toy_dump (o : OCSPRequest) : bytes :=
  (match nonce_value o with Some n => x01 :: n | None => [x00] end
   ++ flat_map (fun cid => issuer_name_hash cid ++ issuer_key_hash cid) (request_list o))%list.

Definition toy : Imports :=
  {| hashlib_sha1 := fun b => x01 :: b;
     hashlib_sha256 := fun b => x02 :: b;
     OCSPRequest_dump := toy_dump;
     OCSPResponse_load := toy_load;
     __version__ := "0.11.1";
     type_name := fun _ => "object";
     repr := fun _ => "<value>" |}.

Definition subject_with (urls : list string) : Certificate :=
  {| issuer := [x30; x00]; public_key := [x03; x01; x00]; serial_number := 7; ocsp_urls := urls |}.

Definition ca : Certificate :=
  {| issuer := [x30; x00]; public_key := [x03; x01; x00]; serial_number := 1; ocsp_urls := [] |}.

(** A body that echoes the nonce [n]. *)
Definition echo (n : bytes) : bytes :=
  (x01 :: byte_of_N (N.of_nat (List.length n)) :: n ++ [xff])%list.

(** The nonce of a request built from the entropy 42, 42, ..., and
    another one. *)
Definition toy_nonce : bytes := x04 :: x10 :: repeat x2a 16.
Definition other_nonce : bytes := x04 :: x10 :: repeat x00 16.

Definition timed_out : exn := Exn URLError "timed out".
Definition unavailable : exn := Exn HTTPError "HTTP Error 503: Service Unavailable".

(** http://a times out, http://b answers 503, http://c echoes
    [toy_nonce], http://d answers without nonce and every other endpoint
    echoes [other_nonce]. *)
Definition toy_net (_ : nat) (rq : Request) (_ : Z) : exn + bytes :=
  if String.eqb (req_url rq) "http://a" then inl timed_out
  else if String.eqb (req_url rq) "http://b" then inl unavailable
  else if String.eqb (req_url rq) "http://c" then inr (echo toy_nonce)
  else if String.eqb (req_url rq) "http://d" then inr [x00; xff]
  else inr (echo other_nonce).

(** A world with the given cache whose entropy is 42, 42, ... *)
Definition toy_world (cache : list (Request * bytes)) : world :=
  World cache toy_net 0 (fun _ => x2a) 0 [].

Definition toy_fetch (urls : list string) (nonce : bool) : M OCSPResponse :=
  fetch (I := toy) (PyCert (subject_with urls)) (PyCert ca) (PyStr "sha1") (PyBool nonce)
    PyNone 10.

Definition toy_key : string -> Request :=
  cache_key (I := toy) "certvalidator 0.11.1" (make_cert_id (I := toy) (subject_with []) ca sha1).

Definition toy_req (nonce : bool) : string -> Request :=
  wire_request (I := toy) "certvalidator 0.11.1"
    (sent_request (make_cert_id (I := toy) (subject_with []) ca sha1) nonce (toy_world [])).


(** ** More vocabulary: counting in traces, a second toy network *)

Definition is_exchange (ev : event) : bool :=
  match ev with EvSend _ _ => true | _ => false end.

(** The number of network exchanges in a trace. *)
Definition exchanges (tr : list event) : nat := List.length (filter is_exchange tr).

Definition has_body (ev : event) : bool :=
  match ev with EvGet _ | EvPut _ _ _ => true | _ => false end.

(** The number of response bodies read from or stored in the cache. *)
Definition bodies (tr : list event) : nat := List.length (filter has_body tr).

(** The outcome [res] of decoding ends the loop: it is a response, or an
    exception that the handler does not catch. *)
Definition ends_loop (res : exn + OCSPResponse) : Prop :=
  match res with
  | inl e => isinstance_exn e URLError = false
  | inr _ => True
  end.

Definition connection_reset : exn := Exn SocketError "[Errno 104] Connection reset by peer".

(** As [toy_net], but http://s fails with a socket error, http://m
    answers with an empty body and http://r echoes the 16 bytes of
    entropy as they are, without their OCTET STRING header. *)
Definition toy_net2 (k : nat) (rq : Request) (t : Z) : exn + bytes :=
  if String.eqb (req_url rq) "http://s" then inl connection_reset
  else if String.eqb (req_url rq) "http://m" then inr []
  else if String.eqb (req_url rq) "http://r" then inr (echo (repeat x2a 16))
  else toy_net k rq t.

Definition toy_world2 (cache : list (Request * bytes)) : world :=
  World cache toy_net2 0 (fun _ => x2a) 0 [].

(** The failures of the transport: URL and HTTP errors, and socket
    errors. *)
Definition is_transport_failure (e : exn) : bool :=
  match exn_cls e with
  | URLError | HTTPError | SocketError => true
  | _ => false
  end.

(** The reading of the loop under which every failure of the transport
    at an endpoint is remembered and the loop goes on with the endpoints
    after it. *)
Definition transport_failures_fall_back : Prop :=
  forall (I : Imports) c i a b ua t w url post e,
    let cid := make_cert_id c i a in
    let rua := resolved_user_agent ua in
    ocsp_urls c = url :: post ->
    cache_lookup (cache_key rua cid url) (w_cache w) = None ->
    w_net w (w_sends w) (wire_request rua (sent_request cid b w) url) t = inl e ->
    is_transport_failure e = true ->
    fetch (PyCert c) (PyCert i) (hash_algo_arg a) (PyBool b) (user_agent_arg ua) t w =
    fetch_loop rua t (no_nonce_request cid) (sent_request cid b w) post (Some e)
      (reached c i a b ua t w [url]).

(** The reading of the nonce check under which a mismatch is handled
    like a transport error: the loop goes on with the endpoints after the
    one that answered, remembering the error. *)
Definition nonce_mismatch_falls_back : Prop :=
  forall (I : Imports) c i a ua t w url post body r m,
    let cid := make_cert_id c i a in
    let rua := resolved_user_agent ua in
    ocsp_urls c = url :: post ->
    cache_lookup (cache_key rua cid url) (w_cache w) = None ->
    w_net w (w_sends w) (wire_request rua (sent_request cid true w) url) t = inr body ->
    OCSPResponse_load body = inr r ->
    resp_nonce_value r = Some m ->
    m <> OctetString_dump (entropy w 16) ->
    fetch (PyCert c) (PyCert i) (hash_algo_arg a) (PyBool true) (user_agent_arg ua) t w =
    fetch_loop rua t (no_nonce_request cid) (sent_request cid true w) post
      (Some (Exn OCSPValidationError nonce_mismatch_message))
      (answered c i a true ua t w [] url body).

(** ** Lemmas on one attempt and on the loop *)

Section Loop.

Context {I : Imports}.

Variables (ua : string) (t : Z) (cid : CertId) (o : OCSPRequest).

Let key := cache_key ua cid.
Let req := wire_request ua o.
Let attempt := try_endpoint ua t (no_nonce_request cid) o.
Let loop := fetch_loop ua t (no_nonce_request cid) o.

(** A cache hit: the cached body is decoded and that is the outcome. *)
Lemma try_endpoint_hit url w body :
  cache_lookup (key url) (w_cache w) = Some body ->
  attempt url w =
    (OCSPResponse_load body,
     World (w_cache w) (w_net w) (w_sends w) (w_entropy w) (w_drawn w)
           (w_trace w ++ [EvHas (key url); EvGet (key url)])).
Proof.
  intros H. unfold key, cache_key in *.
  unfold attempt, try_endpoint, _get_response, bind, is_request_cached,
    get_from_cache, lift, log.
  cbn [w_cache w_net w_sends w_entropy w_drawn w_trace]. rewrite H.
  cbn [w_cache w_net w_sends w_entropy w_drawn w_trace]. rewrite H.
  cbn [content isinstance_CachedResponse negb andb].
  rewrite <- app_assoc. cbn [app].
  destruct (OCSPResponse_load body); reflexivity.
Qed.

(** A miss on which the transport raises. *)
Lemma try_endpoint_transport_error url w e :
  cache_lookup (key url) (w_cache w) = None ->
  w_net w (w_sends w) (req url) t = inl e ->
  attempt url w =
    (inl e,
     World (w_cache w) (w_net w) (S (w_sends w)) (w_entropy w) (w_drawn w)
           (w_trace w ++ failed_attempt t key req url)).
Proof.
  intros H N. unfold key, req, cache_key, wire_request in *.
  unfold attempt, try_endpoint, _get_response, bind, is_request_cached,
    session_prepare_request, session_send, ret, lift, log.
  cbn [w_cache w_net w_sends w_entropy w_drawn w_trace]. rewrite H.
  cbn [w_cache w_net w_sends w_entropy w_drawn w_trace]. rewrite N.
  unfold failed_attempt. rewrite <- app_assoc. reflexivity.
Qed.


(** A miss that the network answers: the body is stored, decoded, and
    then the nonces are compared. *)
Lemma try_endpoint_fresh url w body :
  cache_lookup (key url) (w_cache w) = None ->
  w_net w (w_sends w) (req url) t = inr body ->
  attempt url w =
    (match OCSPResponse_load body with
     | inl e => inl e
     | inr r =>
         if nonces_differ (nonce_value o) (resp_nonce_value r)
         then inl (Exn OCSPValidationError nonce_mismatch_message)
         else inr r
     end,
     after_fresh ua t cid o url body w).
Proof.
  intros H N. unfold after_fresh, key, req, cache_key, wire_request in *.
  unfold attempt, try_endpoint, _get_response, bind, is_request_cached,
    session_prepare_request, session_send, replace_key, ret, lift, log.
  cbn [w_cache w_net w_sends w_entropy w_drawn w_trace]. rewrite H.
  cbn [w_cache w_net w_sends w_entropy w_drawn w_trace]. rewrite N.
  cbn [w_cache w_net w_sends w_entropy w_drawn w_trace content isinstance_CachedResponse negb andb].
  repeat rewrite <- app_assoc. cbn [app].
  destruct (OCSPResponse_load body) as [e|r]; [reflexivity|].
  destruct (nonces_differ _ _); reflexivity.
Qed.

(** The loop passes over endpoints that are down, remembering the
    latest error. *)
Lemma loop_skips_failures pre : forall errs rest last_e w,
  endpoints_down (w_cache w) (w_net w) t key req (w_sends w) pre errs ->
  loop (pre ++ rest) last_e w =
  loop rest (last_error errs last_e) (after_failures t key req pre w).
Proof.
  induction pre as [|url pre IH]; intros errs rest last_e w D.
  - destruct errs; [|contradiction]. destruct w. unfold after_failures. cbn.
    now rewrite Nat.add_0_r, app_nil_r.
  - destruct errs as [|e errs]; [contradiction|].
    destruct D as (Hmiss & Hnet & Hcls & D).
    change (loop ((url :: pre) ++ rest) last_e w)
      with (try_except (attempt url) URLError (fun e => loop (pre ++ rest) (Some e)) w).
    unfold try_except. rewrite (try_endpoint_transport_error url w Hmiss Hnet), Hcls.
    rewrite (IH errs rest (Some e)) by exact D.
    cbn [last_error fold_left]. f_equal.
    unfold after_failures. cbn [w_cache w_net w_sends w_entropy w_drawn w_trace flat_map List.length].
    f_equal; [lia | now rewrite <- app_assoc].
Qed.

(** Whatever happens, an attempt only adds operations on its own
    endpoint to the trace and leaves the entropy alone. *)
Lemma try_endpoint_events url w :
  let w' := snd (attempt url w) in
  exists new,
    w_trace w' = (w_trace w ++ new)%list /\
    Forall (event_of_call key req t [url]) new /\
    w_drawn w' = w_drawn w /\ w_entropy w' = w_entropy w.
Proof.
  assert (U : In url [url]) by now left.
  destruct (cache_lookup (key url) (w_cache w)) as [body|] eqn:Hc.
  - rewrite (try_endpoint_hit url w Hc). cbn.
    eexists; split; [reflexivity|]. split; [|now split].
    repeat constructor; exists url; now split.
  - destruct (w_net w (w_sends w) (req url) t) as [e|body] eqn:Hn.
    + rewrite (try_endpoint_transport_error url w Hc Hn). cbn.
      eexists; split; [reflexivity|]. split; [|now split].
      repeat constructor; exists url; now split.
    + rewrite (try_endpoint_fresh url w Hc Hn). cbn.
      eexists; split; [reflexivity|]. split; [|now split].
      repeat constructor; exists url; now split.
Qed.

Lemma event_of_call_incl urls urls' ev :
  incl urls urls' -> event_of_call key req t urls ev -> event_of_call key req t urls' ev.
Proof. intros H (url & Hin & Hev). exists url. split; [now apply H | exact Hev]. Qed.

Lemma loop_events urls : forall last_e w,
  let w' := snd (loop urls last_e w) in
  exists new,
    w_trace w' = (w_trace w ++ new)%list /\
    Forall (event_of_call key req t urls) new /\
    w_drawn w' = w_drawn w /\ w_entropy w' = w_entropy w.
Proof.
  induction urls as [|url urls IH]; intros last_e w.
  - exists []. cbn. destruct last_e; cbn; rewrite app_nil_r; repeat split; constructor.
  - change (loop (url :: urls) last_e w)
      with (try_except (attempt url) URLError (fun e => loop urls (Some e)) w).
    unfold try_except.
    destruct (try_endpoint_events url w) as (new1 & T1 & F1 & D1 & E1).
    assert (F1' : Forall (event_of_call key req t (url :: urls)) new1).
    { eapply Forall_impl; [|exact F1]. intros ev. apply event_of_call_incl.
      intros x [->|[]]. now left. }
    destruct (attempt url w) as [[e|r] w1] eqn:A; cbn [snd] in T1, D1, E1.
    + destruct (isinstance_exn e URLError).
      * destruct (IH (Some e) w1) as (new2 & T2 & F2 & D2 & E2).
        exists (new1 ++ new2)%list. cbv zeta.
        rewrite T2, T1, D2, E2, app_assoc. repeat split; try assumption.
        apply Forall_app. split; [exact F1'|].
        eapply Forall_impl; [|exact F2]. intros ev. apply event_of_call_incl.
        intros x Hx. now right.
      * exists new1. cbn. now repeat split.
    + exists new1. cbn. now repeat split.
Qed.

(** An attempt leaves one block of operations. *)
Lemma try_endpoint_block url w :
  exists block,
    w_trace (snd (attempt url w)) = (w_trace w ++ block)%list /\
    attempt_block key req t url block.
Proof.
  destruct (cache_lookup (key url) (w_cache w)) as [body|] eqn:Hc.
  - rewrite (try_endpoint_hit url w Hc). eexists. split; [reflexivity|]. now left.
  - destruct (w_net w (w_sends w) (req url) t) as [e|body] eqn:Hn.
    + rewrite (try_endpoint_transport_error url w Hc Hn).
      eexists. split; [reflexivity|]. right; now left.
    + rewrite (try_endpoint_fresh url w Hc Hn).
      eexists. split; [reflexivity|]. right; right. now exists body.
Qed.

(** The loop attempts a prefix of the endpoints, each once, in order. *)
Lemma loop_attempts urls : forall last_e w,
  exists tried post new,
    urls = (tried ++ post)%list /\
    w_trace (snd (loop urls last_e w)) = (w_trace w ++ new)%list /\
    attempts key req t tried new.
Proof.
  induction urls as [|url urls IH]; intros last_e w.
  - exists [], [], []. cbn. destruct last_e; cbn; rewrite app_nil_r; repeat split; constructor.
  - change (loop (url :: urls) last_e w)
      with (try_except (attempt url) URLError (fun e => loop urls (Some e)) w).
    unfold try_except.
    destruct (try_endpoint_block url w) as (block & T1 & B).
    assert (Stop : forall res w1, w_trace w1 = (w_trace w ++ block)%list ->
              exists tried post new,
                url :: urls = (tried ++ post)%list /\
                w_trace (snd (res : exn + OCSPResponse, w1)) = (w_trace w ++ new)%list /\
                attempts key req t tried new).
    { intros res w1 T. exists [url], urls, (block ++ [])%list.
      split; [reflexivity|]. split; [now rewrite app_nil_r|].
      constructor; [exact B | constructor]. }
    destruct (attempt url w) as [[e|r] w1] eqn:A; cbn [snd] in T1.
    + destruct (isinstance_exn e URLError); [|now apply Stop].
      destruct (IH (Some e) w1) as (tried & post & new & U & T2 & H).
      exists (url :: tried), post, (block ++ new)%list.
      split; [now rewrite U|]. split; [now rewrite T2, T1, app_assoc|].
      now constructor.
    + now apply Stop.
Qed.

(** The trace of the loop starts with the attempt on the first
    endpoint. *)
Lemma loop_first_attempt urls last_e w :
  exists new,
    w_trace (snd (loop urls last_e w)) = (w_trace w ++ new)%list /\
    first_attempt key req t w urls new.
Proof.
  destruct urls as [|url urls].
  - exists []. cbn. split; [|reflexivity]. destruct last_e; cbn; now rewrite app_nil_r.
  - change (loop (url :: urls) last_e w)
      with (try_except (attempt url) URLError (fun e => loop urls (Some e)) w).
    assert (Cont : forall (res : exn + OCSPResponse) w1 block,
              w_trace w1 = (w_trace w ++ block)%list ->
              exists rest,
                w_trace (snd (match res with
                              | inl e => if isinstance_exn e URLError
                                         then loop urls (Some e) w1 else (inl e, w1)
                              | inr a => (inr a, w1)
                              end))
                  = (w_trace w ++ block ++ rest)%list).
    { intros res w1 block T.
      assert (Stop : exists rest, w_trace w1 = (w_trace w ++ block ++ rest)%list).
      { exists []. now rewrite app_nil_r. }
      destruct res as [e|r]; [|exact Stop].
      destruct (isinstance_exn e URLError); [|exact Stop].
      destruct (loop_events urls (Some e) w1) as (new & T2 & _).
      exists new. now rewrite T2, T, app_assoc. }
    assert (Goal' : exists rest,
              w_trace (snd (try_except (attempt url) URLError (fun e => loop urls (Some e)) w))
                = (w_trace w ++ first_block key req t w url ++ rest)%list).
    { unfold first_block.
      destruct (cache_lookup (key url) (w_cache w)) as [body|] eqn:Hc.
      - unfold try_except. rewrite (try_endpoint_hit url w Hc).
        apply (Cont (OCSPResponse_load body)). reflexivity.
      - destruct (w_net w (w_sends w) (req url) t) as [e|body] eqn:Hn.
        + unfold try_except. rewrite (try_endpoint_transport_error url w Hc Hn).
          apply (Cont (inl e)). reflexivity.
        + unfold try_except. rewrite (try_endpoint_fresh url w Hc Hn).
          apply (Cont (match OCSPResponse_load body with
                       | inl e => inl e
                       | inr r =>
                           if nonces_differ (nonce_value o) (resp_nonce_value r)
                           then inl (Exn OCSPValidationError nonce_mismatch_message)
                           else inr r
                       end) (after_fresh ua t cid o url body w)).
          reflexivity. }
    destruct Goal' as (rest & T).
    exists (first_block key req t w url ++ rest)%list. split; [exact T|]. now exists rest.
Qed.

End Loop.

(** ** Properties of [fetch] *)

Section Fetch.

Context {I : Imports}.


(** With arguments of the right types, [fetch] is the loop over the
    endpoints of the certificate. *)
Lemma fetch_typed c i a b ua t w :
  fetch (PyCert c) (PyCert i) (hash_algo_arg a) (PyBool b) (user_agent_arg ua) t w =
  fetch_loop (resolved_user_agent ua) t
    (no_nonce_request (make_cert_id c i a)) (sent_request (make_cert_id c i a) b w)
    (ocsp_urls c) None (after_nonce b w).
Proof. destruct a, ua, b; reflexivity. Qed.

(** *** Argument checks *)


Local Ltac rejected :=
  eexists; split; [reflexivity | first [left; reflexivity | right; reflexivity]].

(** C6.  When the subject or the issuer is not a certificate, or the
    digest algorithm is not "sha1" or "sha256", or the nonce flag is not a
    boolean, or a user agent is supplied that is not text, [fetch] raises
    a [TypeError] or a [ValueError] and the world is exactly as before:
    no cache or network operation has happened, no entropy was drawn. *)
Theorem fetch_rejects_bad_arguments cert issuer hash_algo nonce user_agent t w :
  is_Certificate cert = false \/
  is_Certificate issuer = false \/
  is_recognized_hash_algo hash_algo = false \/
  is_bool nonce = false \/
  (is_None user_agent = false /\ is_text user_agent = false) ->
  exists e,
    fetch cert issuer hash_algo nonce user_agent t w = (inl e, w) /\ InvalidArgument e.
Proof.
  intros H. unfold InvalidArgument.
  destruct cert as [| | | | | |c]; try rejected.
  destruct issuer as [| | | | | |i]; try rejected.
  assert (A : (exists e, expect_hash_algo hash_algo w = (inl e, w) /\
                 (exn_cls e = TypeError \/ exn_cls e = ValueError)) \/
              (is_recognized_hash_algo hash_algo = true /\
               exists a, expect_hash_algo hash_algo w = (inr a, w))).
  { destruct hash_algo as [| | |s| | |]; try (left; rejected).
    cbn. destruct (String.eqb s "sha1"); [right; split; [|eexists]; reflexivity|].
    destruct (String.eqb s "sha256"); [right; split; [|eexists]; reflexivity|].
    left. rejected. }
  destruct A as [(e & E & K)|(R & a & E)].
  { exists e. split; [|exact K]. unfold fetch, bind. cbn. now rewrite E. }
  assert (F : forall k : DigestAlgorithm -> M OCSPResponse,
            bind (expect_hash_algo hash_algo) k w = k a w).
  { intros k. unfold bind. now rewrite E. }
  unfold fetch. unfold bind at 1 2. cbn [expect_Certificate ret]. rewrite F.
  destruct nonce as [|b| | | | |]; try rejected.
  destruct user_agent as [| | |s| | |]; try rejected.
  - exfalso. destruct H as [H|[H|[H|[H|[H _]]]]]; try discriminate. congruence.
  - exfalso. destruct H as [H|[H|[H|[H|[_ H]]]]]; try discriminate. congruence.
Qed.

(** *** No endpoint *)

Lemma after_nonce_io b w :
  w_cache (after_nonce b w) = w_cache w /\ w_net (after_nonce b w) = w_net w /\
  w_sends (after_nonce b w) = w_sends w /\ w_trace (after_nonce b w) = w_trace w /\
  w_entropy (after_nonce b w) = w_entropy w /\
  w_drawn (after_nonce b w) = w_drawn w + (if b then 16 else 0).
Proof. destruct b; cbn; repeat split; lia. Qed.

(** C5.  For a certificate without OCSP endpoints [fetch] fails, always
    in the same way: [last_e] is still [None], and raising it is a
    [TypeError].  Cache, network and trace are untouched. *)
Theorem fetch_without_endpoints c i a b ua t w :
  ocsp_urls c = [] ->
  exists w',
    fetch (PyCert c) (PyCert i) (hash_algo_arg a) (PyBool b) (user_agent_arg ua) t w
      = (inl (Exn TypeError "exceptions must derive from BaseException"), w') /\
    w_trace w' = w_trace w /\ w_cache w' = w_cache w /\ w_sends w' = w_sends w.
Proof.
  intros H. rewrite fetch_typed, H. exists (after_nonce b w).
  split; [reflexivity|]. destruct (after_nonce_io b w) as (C & _ & S & T & _).
  now rewrite C, S, T.
Qed.

(** *** Reaching an endpoint *)

Section Reaching.

Variables (c i : Certificate) (a : DigestAlgorithm) (b : bool) (ua : option string) (t : Z)
  (w : world).

Let cid := make_cert_id c i a.
Let key := cache_key (resolved_user_agent ua) cid.
Let req := wire_request (resolved_user_agent ua) (sent_request cid b w).


Lemma reached_io pre :
  w_cache (reached c i a b ua t w pre) = w_cache w /\ w_net (reached c i a b ua t w pre) = w_net w /\
  w_sends (reached c i a b ua t w pre) = w_sends w + List.length pre /\
  w_trace (reached c i a b ua t w pre) = (w_trace w ++ flat_map (failed_attempt t key req) pre)%list /\
  w_entropy (reached c i a b ua t w pre) = w_entropy w /\
  w_drawn (reached c i a b ua t w pre) = w_drawn w + (if b then 16 else 0).
Proof.
  unfold reached, after_failures. cbn.
  destruct (after_nonce_io b w) as (C & N & S & T & E & R).
  now rewrite C, N, S, T, E, R.
Qed.

Lemma fetch_reaches pre rest errs :
  ocsp_urls c = (pre ++ rest)%list ->
  endpoints_down (w_cache w) (w_net w) t key req (w_sends w) pre errs ->
  fetch (PyCert c) (PyCert i) (hash_algo_arg a) (PyBool b) (user_agent_arg ua) t w =
  fetch_loop (resolved_user_agent ua) t (no_nonce_request cid) (sent_request cid b w)
    rest (last_error errs None) (reached c i a b ua t w pre).
Proof.
  intros U D. rewrite fetch_typed, U. apply loop_skips_failures.
  destruct (after_nonce_io b w) as (C & N & S & _). now rewrite C, N, S.
Qed.

(** One more turn of the loop, on an endpoint that is cached. *)
Lemma fetch_reaches_hit pre url post errs body :
  ocsp_urls c = (pre ++ url :: post)%list ->
  endpoints_down (w_cache w) (w_net w) t key req (w_sends w) pre errs ->
  cache_lookup (key url) (w_cache w) = Some body ->
  fetch (PyCert c) (PyCert i) (hash_algo_arg a) (PyBool b) (user_agent_arg ua) t w =
  try_except (lift (OCSPResponse_load body)) URLError
    (fun e => fetch_loop (resolved_user_agent ua) t (no_nonce_request cid)
                (sent_request cid b w) post (Some e))
    (World (w_cache w) (w_net w) (w_sends w + List.length pre) (w_entropy w)
       (w_drawn w + (if b then 16 else 0))
       (w_trace w ++ flat_map (failed_attempt t key req) pre
          ++ [EvHas (key url); EvGet (key url)])).
Proof.
  intros U D H. rewrite (fetch_reaches pre (url :: post) errs U D).
  destruct (reached_io pre) as (C & N & S & T & E & R).
  cbn [fetch_loop]. unfold try_except.
  rewrite (@try_endpoint_hit _ (resolved_user_agent ua) t cid (sent_request cid b w)
             url (reached c i a b ua t w pre) body) by (rewrite C; exact H).
  unfold lift. now rewrite C, N, S, T, E, R, <- app_assoc.
Qed.


(** One more turn of the loop, on an endpoint that the network answers. *)
Lemma fetch_reaches_fresh pre url post errs body r :
  ocsp_urls c = (pre ++ url :: post)%list ->
  endpoints_down (w_cache w) (w_net w) t key req (w_sends w) pre errs ->
  cache_lookup (key url) (w_cache w) = None ->
  w_net w (w_sends w + List.length pre) (req url) t = inr body ->
  OCSPResponse_load body = inr r ->
  fetch (PyCert c) (PyCert i) (hash_algo_arg a) (PyBool b) (user_agent_arg ua) t w =
  (if nonces_differ (nonce_value (sent_request cid b w)) (resp_nonce_value r)
   then inl (Exn OCSPValidationError nonce_mismatch_message)
   else inr r,
   answered c i a b ua t w pre url body).
Proof.
  intros U D H N L. rewrite (fetch_reaches pre (url :: post) errs U D).
  destruct (reached_io pre) as (C & Nt & S & T & E & R).
  cbn [fetch_loop]. unfold try_except.
  rewrite (@try_endpoint_fresh _ (resolved_user_agent ua) t cid (sent_request cid b w)
             url (reached c i a b ua t w pre) body)
    by (rewrite ?C, ?Nt, ?S; assumption).
  rewrite L.
  assert (W : after_fresh (resolved_user_agent ua) t cid (sent_request cid b w) url body
                (reached c i a b ua t w pre) = answered c i a b ua t w pre url body).
  { unfold after_fresh, answered. now rewrite C, Nt, S, T, E, R, <- app_assoc. }
  rewrite W. now destruct (nonces_differ _ _).
Qed.

End Reaching.

(** *** The trace of a call *)

Lemma fetch_events c i a b ua t w :
  let cid := make_cert_id c i a in
  let w' := snd (fetch (PyCert c) (PyCert i) (hash_algo_arg a) (PyBool b) (user_agent_arg ua) t w) in
  exists new,
    w_trace w' = (w_trace w ++ new)%list /\
    Forall (event_of_call (cache_key (resolved_user_agent ua) cid)
              (wire_request (resolved_user_agent ua) (sent_request cid b w)) t (ocsp_urls c)) new /\
    w_drawn w' = w_drawn w + (if b then 16 else 0) /\
    w_entropy w' = w_entropy w.
Proof.
  intros cid w'. subst w'. rewrite fetch_typed. fold cid.
  destruct (loop_events (resolved_user_agent ua) t cid (sent_request cid b w) (ocsp_urls c)
              None (after_nonce b w)) as (new & T & F & D & E).
  destruct (after_nonce_io b w) as (_ & _ & _ & Ta & Ea & Da).
  exists new. now rewrite T, D, E, Ta, Ea, Da.
Qed.

(** The encoding of an OCTET STRING of 16 bytes. *)
Lemma OctetString_dump_16 (r : bytes) :
  List.length r = 16 -> OctetString_dump r = x04 :: x10 :: r.
Proof. intros H. unfold OctetString_dump. now rewrite H. Qed.

Lemma entropy_length w n : List.length (entropy w n) = n.
Proof. unfold entropy. now rewrite length_map, length_seq. Qed.

Lemma first_block_after_nonce key req t b w url :
  first_block key req t (after_nonce b w) url = first_block key req t w url.
Proof. now destruct b. Qed.

(** The trace of a call: one attempt on each endpoint of a prefix of the
    list, the first of them as the world at the start of the call
    determines it. *)
Lemma fetch_attempts c i a b ua t w :
  let cid := make_cert_id c i a in
  let key := cache_key (resolved_user_agent ua) cid in
  let req := wire_request (resolved_user_agent ua) (sent_request cid b w) in
  let w' := snd (fetch (PyCert c) (PyCert i) (hash_algo_arg a) (PyBool b) (user_agent_arg ua) t w) in
  exists tried post new,
    ocsp_urls c = (tried ++ post)%list /\
    w_trace w' = (w_trace w ++ new)%list /\
    attempts key req t tried new /\
    first_attempt key req t w (ocsp_urls c) new.
Proof.
  intros cid key req w'. subst w'. rewrite fetch_typed. fold cid.
  destruct (loop_attempts (resolved_user_agent ua) t cid (sent_request cid b w)
              (ocsp_urls c) None (after_nonce b w)) as (tried & post & new & U & T & A).
  destruct (loop_first_attempt (resolved_user_agent ua) t cid (sent_request cid b w)
              (ocsp_urls c) None (after_nonce b w)) as (new' & T' & F).
  rewrite T in T'. apply app_inv_head in T'. subst new'.
  destruct (after_nonce_io b w) as (_ & _ & _ & Ta & _).
  exists tried, post, new. rewrite T, Ta. repeat split; try assumption.
  unfold first_attempt in *. destruct (ocsp_urls c) as [|url urls]; [exact F|].
  now rewrite first_block_after_nonce in F.
Qed.

(** *** Fail-over *)


(** C4, as the code has it.  In every call the trace grows by one
    attempt on each endpoint of a prefix of the certificate's list, in
    the order of the list: no endpoint is attempted twice and none is
    skipped.  Let the endpoints [pre] be uncached and answer with
    [URLError]s [errs] (an [HTTPError] is one), the errors that the
    handler of the loop catches.  If these are all the endpoints, [fetch]
    raises the last of the errors, unchanged.  If the next endpoint
    answers with a response that decodes and passes the nonce check,
    [fetch] returns that response; the trace then shows the attempts on
    [pre] and on that endpoint, and nothing on the endpoints after it.
    If the transport raises another exception at the next endpoint, a
    socket error for one, [fetch] raises it at once: it is not
    remembered and the endpoints after it are not tried. *)
Theorem fetch_fails_over c i a b ua t w :
  let cid := make_cert_id c i a in
  let key := cache_key (resolved_user_agent ua) cid in
  let req := wire_request (resolved_user_agent ua) (sent_request cid b w) in
  let call := fetch (PyCert c) (PyCert i) (hash_algo_arg a) (PyBool b) (user_agent_arg ua) t in
  (exists tried post new,
     ocsp_urls c = (tried ++ post)%list /\
     w_trace (snd (call w)) = (w_trace w ++ new)%list /\
     attempts key req t tried new /\
     first_attempt key req t w (ocsp_urls c) new) /\
  forall pre errs,
    endpoints_down (w_cache w) (w_net w) t key req (w_sends w) pre errs ->
    (forall e, ocsp_urls c = pre -> last_error errs None = Some e ->
       exists w', call w = (inl e, w') /\
         w_trace w' = (w_trace w ++ flat_map (failed_attempt t key req) pre)%list /\
         w_cache w' = w_cache w) /\
    (forall url post body r,
       ocsp_urls c = (pre ++ url :: post)%list ->
       cache_lookup (key url) (w_cache w) = None ->
       w_net w (w_sends w + List.length pre) (req url) t = inr body ->
       OCSPResponse_load body = inr r ->
       nonces_differ (nonce_value (sent_request cid b w)) (resp_nonce_value r) = false ->
       exists w', call w = (inr r, w') /\
         w_trace w' = (w_trace w ++ flat_map (failed_attempt t key req) pre
                         ++ [EvHas (key url); EvSend (req url) t;
                             EvPut (req url) (key url) body])%list) /\
    (forall url post e,
       ocsp_urls c = (pre ++ url :: post)%list ->
       cache_lookup (key url) (w_cache w) = None ->
       w_net w (w_sends w + List.length pre) (req url) t = inl e ->
       isinstance_exn e URLError = false ->
       exists w', call w = (inl e, w') /\
         w_trace w' = (w_trace w ++ flat_map (failed_attempt t key req) pre
                         ++ [EvHas (key url); EvSend (req url) t])%list /\
         w_cache w' = w_cache w).
Proof.
  intros cid key req call. split.
  { exact (fetch_attempts c i a b ua t w). }
  intros pre errs D. split; [|split].
  - intros e U L. exists (reached c i a b ua t w pre).
    unfold call. rewrite (fetch_reaches c i a b ua t w pre [] errs); [|now rewrite app_nil_r|exact D].
    cbn [fetch_loop]. rewrite L.
    destruct (reached_io c i a b ua t w pre) as (C & _ & _ & T & _).
    repeat split; assumption.
  - intros url post body r U H N L V. exists (answered c i a b ua t w pre url body).
    unfold call. rewrite (fetch_reaches_fresh c i a b ua t w pre url post errs U D H N L).
    fold cid. rewrite V. split; reflexivity.
  - intros url post e U H N C.
    unfold call. rewrite (fetch_reaches c i a b ua t w pre (url :: post) errs U D).
    destruct (reached_io c i a b ua t w pre) as (Cr & Nr & Sr & Tr & _).
    cbn [fetch_loop]. unfold try_except.
    rewrite (@try_endpoint_transport_error _ (resolved_user_agent ua) t cid (sent_request cid b w)
               url (reached c i a b ua t w pre) e)
      by (rewrite ?Cr, ?Nr, ?Sr; assumption).
    rewrite C. eexists. split; [reflexivity|].
    cbn [w_trace w_cache]. rewrite Cr, Tr, <- app_assoc. now split.
Qed.

(** *** Cache hits *)

(** C2.  When the loop reaches an endpoint whose key is cached and the
    cached body decodes to [r], [fetch] returns [r], whatever nonce [r]
    carries and whatever the nonce flag is.  The trace ends with the
    lookup and the read of that key: no exchange for this endpoint,
    nothing for the endpoints after it; the cache is unchanged. *)
Theorem fetch_returns_cached_response c i a b ua t w pre errs url post body r :
  let cid := make_cert_id c i a in
  let key := cache_key (resolved_user_agent ua) cid in
  let req := wire_request (resolved_user_agent ua) (sent_request cid b w) in
  ocsp_urls c = (pre ++ url :: post)%list ->
  endpoints_down (w_cache w) (w_net w) t key req (w_sends w) pre errs ->
  cache_lookup (key url) (w_cache w) = Some body ->
  OCSPResponse_load body = inr r ->
  exists w',
    fetch (PyCert c) (PyCert i) (hash_algo_arg a) (PyBool b) (user_agent_arg ua) t w
      = (inr r, w') /\
    w_trace w' = (w_trace w ++ flat_map (failed_attempt t key req) pre
                    ++ [EvHas (key url); EvGet (key url)])%list /\
    w_sends w' = w_sends w + List.length pre /\
    w_cache w' = w_cache w.
Proof.
  intros cid key req U D H L.
  rewrite (fetch_reaches_hit c i a b ua t w pre url post errs U D H).
  unfold try_except, lift. rewrite L. eexists. split; [reflexivity|]. now cbn.
Qed.

(** *** The nonce check *)

(** C1, as the code has it.  When the request carries a nonce and the
    endpoint that the loop has reached answers with a response whose
    nonce is a different one, [fetch] raises [OCSPValidationError] at
    once: the handler of the loop catches [URLError] only, so the
    endpoints after this one are not tried.  The response is in the cache
    by then. *)
Theorem fetch_nonce_mismatch_raises c i a ua t w pre errs url post body r m :
  let cid := make_cert_id c i a in
  let key := cache_key (resolved_user_agent ua) cid in
  let req := wire_request (resolved_user_agent ua) (sent_request cid true w) in
  ocsp_urls c = (pre ++ url :: post)%list ->
  endpoints_down (w_cache w) (w_net w) t key req (w_sends w) pre errs ->
  cache_lookup (key url) (w_cache w) = None ->
  w_net w (w_sends w + List.length pre) (req url) t = inr body ->
  OCSPResponse_load body = inr r ->
  resp_nonce_value r = Some m ->
  m <> OctetString_dump (entropy w 16) ->
  exists w',
    fetch (PyCert c) (PyCert i) (hash_algo_arg a) (PyBool true) (user_agent_arg ua) t w
      = (inl (Exn OCSPValidationError nonce_mismatch_message), w') /\
    w_trace w' = (w_trace w ++ flat_map (failed_attempt t key req) pre
                    ++ [EvHas (key url); EvSend (req url) t; EvPut (req url) (key url) body])%list /\
    w_sends w' = S (w_sends w + List.length pre).
Proof.
  intros cid key req U D H N L R Hm.
  rewrite (fetch_reaches_fresh c i a true ua t w pre url post errs U D H N L).
  fold cid. rewrite R. cbn [sent_request nonce_request nonce_value request_extensions
    fold_left extn_id extn_value String.eqb Ascii.eqb Bool.eqb nonces_differ].
  unfold bytes_eqb. destruct (bytes_eq_dec (OctetString_dump (entropy w 16)) m) as [E|_]; [now symmetry in E|].
  eexists. split; [reflexivity|]. now cbn.
Qed.

(** C9.  On a fresh response the call can only fail when the nonce flag
    is set, the response carries a nonce, and that nonce is not the one
    sent.  When the request carries no nonce, or the response carries
    none, the response is returned. *)
Theorem fetch_tolerates_absent_nonce c i a b ua t w pre errs url post body r :
  let cid := make_cert_id c i a in
  let key := cache_key (resolved_user_agent ua) cid in
  let req := wire_request (resolved_user_agent ua) (sent_request cid b w) in
  let out := fetch (PyCert c) (PyCert i) (hash_algo_arg a) (PyBool b) (user_agent_arg ua) t w in
  ocsp_urls c = (pre ++ url :: post)%list ->
  endpoints_down (w_cache w) (w_net w) t key req (w_sends w) pre errs ->
  cache_lookup (key url) (w_cache w) = None ->
  w_net w (w_sends w + List.length pre) (req url) t = inr body ->
  OCSPResponse_load body = inr r ->
  (nonce_value (sent_request cid b w) = None \/ resp_nonce_value r = None -> fst out = inr r) /\
  (forall e, fst out = inl e ->
     e = Exn OCSPValidationError nonce_mismatch_message /\
     b = true /\
     exists m, resp_nonce_value r = Some m /\ m <> OctetString_dump (entropy w 16)) /\
  (b = false -> nonce_value (sent_request cid b w) = None).
Proof.
  intros cid key req out U D H N L. unfold out.
  rewrite (fetch_reaches_fresh c i a b ua t w pre url post errs U D H N L). fold cid.
  cbn [fst]. split; [|split].
  - intros [A|A]; rewrite A; [reflexivity|].
    now destruct (nonce_value (sent_request cid b w)).
  - intros e. destruct b; [|cbn; discriminate].
    cbn [sent_request nonce_request nonce_value request_extensions
      fold_left extn_id extn_value String.eqb Ascii.eqb Bool.eqb nonces_differ].
    destruct (resp_nonce_value r) as [m|]; [|discriminate].
    unfold bytes_eqb. destruct (bytes_eq_dec (OctetString_dump (entropy w 16)) m) as [E|E]; cbn [negb]; [discriminate|].
    intros [= <-]. repeat split. exists m. split; [reflexivity|]. congruence.
  - now intros ->.
Qed.

(** *** A response that failed the nonce check stays in the cache *)

Lemma endpoints_down_miss cache net t key req pre : forall n errs u,
  endpoints_down cache net t key req n pre errs ->
  In u pre -> cache_lookup (key u) cache = None.
Proof.
  induction pre as [|x pre IH]; intros n errs u D [].
  - subst x. destruct errs; [contradiction|]. now destruct D.
  - destruct errs; [contradiction|]. destruct D as (_ & _ & _ & D). now apply (IH (S n) errs).
Qed.

Lemma cache_key_url ua cid u v : cache_key ua cid u = cache_key ua cid v -> u = v.
Proof. now intros [= E]. Qed.

Section Served.

Variables (ua : string) (t : Z) (cid : CertId) (o : OCSPRequest).
Variables (url : string) (post : list string) (body : bytes) (r : OCSPResponse).

Hypothesis decodes : OCSPResponse_load body = inr r.

(** With [url] in the cache, the endpoints before it either equal it or
    are uncached, and the network down for them, the loop ends at the
    cache entry of [url]. *)
Lemma loop_served_from_cache pre : forall last_e w,
  cache_lookup (cache_key ua cid url) (w_cache w) = Some body ->
  (forall u, In u pre -> u = url \/ cache_lookup (cache_key ua cid u) (w_cache w) = None) ->
  (forall j u, nth_error pre j = Some u ->
     exists e, w_net w (w_sends w + j) (wire_request ua o u) t = inl e /\
               isinstance_exn e URLError = true) ->
  exists w' new,
    fetch_loop ua t (no_nonce_request cid) o (pre ++ url :: post) last_e w = (inr r, w') /\
    w_trace w' = (w_trace w ++ new
                    ++ [EvHas (cache_key ua cid url); EvGet (cache_key ua cid url)])%list /\
    Forall (fun ev => forall rq body', ev <> EvPut rq (cache_key ua cid url) body') new /\
    w_cache w' = w_cache w.
Proof.
  induction pre as [|u pre IH]; intros last_e w H P N.
  - cbn [app fetch_loop]. unfold try_except.
    rewrite (try_endpoint_hit ua t cid o url w H), decodes.
    eexists. exists []. split; [reflexivity|]. cbn. repeat split. constructor.
  - cbn [app fetch_loop]. unfold try_except.
    destruct (P u (or_introl eq_refl)) as [->|Hu].
    + rewrite (try_endpoint_hit ua t cid o url w H), decodes.
      eexists. exists []. split; [reflexivity|]. cbn. repeat split. constructor.
    + destruct (N 0 u eq_refl) as (e & Hn & He).
      rewrite Nat.add_0_r in Hn.
      rewrite (try_endpoint_transport_error ua t cid o u w Hu Hn), He.
      match goal with |- context [fetch_loop _ _ _ _ _ _ ?w1] => set (w1' := w1) end.
      destruct (IH (Some e) w1') as (w' & new & E & T & F & C).
      * exact H.
      * intros v Hv. apply P. now right.
      * intros j v Hj. destruct (N (S j) v Hj) as (e' & Hn' & He').
        exists e'. split; [|exact He']. subst w1'. cbn. now rewrite <- Nat.add_succ_comm in Hn'.
      * exists w', (failed_attempt t (cache_key ua cid) (wire_request ua o) u ++ new)%list.
        split; [exact E|]. rewrite T, C. subst w1'. cbn [w_trace w_cache].
        rewrite <- !app_assoc. repeat split.
        apply Forall_app. split; [|exact F].
        unfold failed_attempt. repeat constructor; intros rq body'; discriminate.
Qed.

End Served.


(** *** What a call puts in the cache and on the wire *)

(** C3.  The operations of a call are one attempt on each endpoint of a
    prefix of the certificate's list, beginning with the attempt on the
    first endpoint.  In the attempt on an endpoint the lookup, the read
    and the store all use one key: the POST request to that endpoint
    whose body is the encoding of the request without nonce and whose
    headers are the three fixed ones.  Neither the nonce flag nor the
    entropy occurs in the key, so it is the same key for both values of
    the flag; only the request on the wire depends on them. *)
Theorem cache_key_ignores_nonce c i a b ua t w :
  let key := fun url =>
    mkRequest "POST" url
      (OCSPRequest_dump {| request_list := [make_cert_id c i a]; request_extensions := None |})
      [("Accept", "application/ocsp-response");
       ("User-Agent", resolved_user_agent ua);
       ("Content-Type", "application/ocsp-request")] in
  let req := wire_request (resolved_user_agent ua) (sent_request (make_cert_id c i a) b w) in
  let w' := snd (fetch (PyCert c) (PyCert i) (hash_algo_arg a) (PyBool b) (user_agent_arg ua) t w) in
  exists tried post new,
    ocsp_urls c = (tried ++ post)%list /\
    w_trace w' = (w_trace w ++ new)%list /\
    attempts key req t tried new /\
    first_attempt key req t w (ocsp_urls c) new.
Proof. exact (fetch_attempts c i a b ua t w). Qed.

(** C7.  The request without nonce is built whatever the flag says, and
    drawing no entropy; its encoding is the body of the cache key of
    every attempt.  Without the flag it is also the request on the wire.
    With the flag the request on the wire is a second one, whose one
    extension is the nonce extension, not critical, holding the OCTET
    STRING encoding (04 10 and the bytes) of the next 16 bytes of
    entropy, which the call consumes. *)
Theorem fetch_builds_requests c i a (b : bool) ua t w :
  let cid := make_cert_id c i a in
  let no_nonce := {| request_list := [cid]; request_extensions := None |} in
  let random := map (w_entropy w) (seq (w_drawn w) 16) in
  let with_nonce :=
    {| request_list := [cid];
       request_extensions :=
         Some [ {| extn_id := "nonce"; critical := false;
                   extn_value := x04 :: x10 :: random |} ] |} in
  let sent := if b then with_nonce else no_nonce in
  let key := fun url =>
    mkRequest "POST" url (OCSPRequest_dump no_nonce) (make_headers (resolved_user_agent ua)) in
  let req := fun url =>
    mkRequest "POST" url (OCSPRequest_dump sent) (make_headers (resolved_user_agent ua)) in
  let w' := snd (fetch (PyCert c) (PyCert i) (hash_algo_arg a) (PyBool b) (user_agent_arg ua) t w) in
  _get_ocsp_request_obj cid false w = (inr no_nonce, w) /\
  fst (_get_ocsp_request_obj cid true w) = inr with_nonce /\
  w_drawn (snd (_get_ocsp_request_obj cid true w)) = w_drawn w + 16 /\
  List.length random = 16 /\
  nonce_value with_nonce = Some (x04 :: x10 :: random) /\
  nonce_value no_nonce = None /\
  w_drawn w' = w_drawn w + (if b then 16 else 0) /\
  exists tried post new,
    ocsp_urls c = (tried ++ post)%list /\
    w_trace w' = (w_trace w ++ new)%list /\
    attempts key req t tried new /\
    first_attempt key req t w (ocsp_urls c) new.
Proof.
  intros cid no_nonce random with_nonce sent key req w'.
  assert (R : OctetString_dump random = x04 :: x10 :: random).
  { apply OctetString_dump_16. exact (entropy_length w 16). }
  split; [reflexivity|].
  split; [cbn; unfold with_nonce; now rewrite <- R|].
  split; [reflexivity|].
  split; [exact (entropy_length w 16)|].
  split; [reflexivity|]. split; [reflexivity|].
  destruct (fetch_events c i a b ua t w) as (_ & _ & _ & D & _).
  split; [exact D|].
  assert (S : sent_request cid b w = sent).
  { unfold sent_request, sent, with_nonce, nonce_request, entropy. fold random.
    destruct b; [now rewrite R | reflexivity]. }
  pose proof (fetch_attempts c i a b ua t w) as A. cbv zeta in A. fold cid in A.
  rewrite S in A. exact A.
Qed.

(** C8.  The identifier in the requests of a call holds the chosen
    algorithm, the digests by that algorithm of the issuer name recorded
    in the subject certificate and of the public key of the issuer
    certificate, and the serial number of the subject.  Two calls in a
    row with the nonce flag each draw 16 bytes of entropy, the second the
    16 bytes after those of the first; the attempts of both use keys and
    requests for this one identifier, and requests with their own
    nonce. *)
Theorem cert_id_is_stable c i a ua t w :
  let digest := match a with sha1 => hashlib_sha1 | sha256 => hashlib_sha256 end in
  let cid :=
    {| hash_algorithm := a;
       issuer_name_hash := digest (issuer c);
       issuer_key_hash := digest (public_key i);
       cid_serial_number := serial_number c |} in
  let random1 := map (w_entropy w) (seq (w_drawn w) 16) in
  let random2 := map (w_entropy w) (seq (w_drawn w + 16) 16) in
  let request := fun random =>
    {| request_list := [cid];
       request_extensions :=
         Some [ {| extn_id := "nonce"; critical := false;
                   extn_value := x04 :: x10 :: random |} ] |} in
  let key := cache_key (resolved_user_agent ua) cid in
  let req := fun random => wire_request (resolved_user_agent ua) (request random) in
  let call := fetch (PyCert c) (PyCert i) (hash_algo_arg a) (PyBool true) (user_agent_arg ua) t in
  let w1 := snd (call w) in
  let w2 := snd (call w1) in
  w_drawn w1 = w_drawn w + 16 /\
  w_drawn w2 = w_drawn w + 32 /\
  (exists tried post new,
     ocsp_urls c = (tried ++ post)%list /\
     w_trace w1 = (w_trace w ++ new)%list /\
     attempts key (req random1) t tried new /\
     first_attempt key (req random1) t w (ocsp_urls c) new) /\
  (exists tried post new,
     ocsp_urls c = (tried ++ post)%list /\
     w_trace w2 = (w_trace w1 ++ new)%list /\
     attempts key (req random2) t tried new /\
     first_attempt key (req random2) t w1 (ocsp_urls c) new).
Proof.
  intros digest cid random1 random2 request key req call w1 w2.
  assert (C : make_cert_id c i a = cid) by (unfold cid, digest; now destruct a).
  destruct (fetch_events c i a true ua t w) as (_ & _ & _ & D1 & E1).
  destruct (fetch_events c i a true ua t w1) as (_ & _ & _ & D2 & _).
  fold call in D1, E1, D2. fold w1 in D1, E1, D2. fold w2 in D2.
  assert (S : forall w0, sent_request cid true w0 = request (entropy w0 16)).
  { intros w0. unfold sent_request, nonce_request, request.
    now rewrite (OctetString_dump_16 (entropy w0 16) (entropy_length w0 16)). }
  split; [exact D1|]. split; [rewrite D2, D1; lia|]. split.
  - pose proof (fetch_attempts c i a true ua t w) as A. cbv zeta in A.
    rewrite C, S in A. exact A.
  - pose proof (fetch_attempts c i a true ua t w1) as A. cbv zeta in A.
    rewrite C, S in A. unfold entropy in A. rewrite D1, E1 in A. exact A.
Qed.

End Fetch.

(** ** Further lemmas on [_get_response] and on the loop *)

Section LoopFacts.

Context {I : Imports}.

Variables (ua : string) (t : Z) (cid : CertId) (o : OCSPRequest).

Local Abbreviation key := (cache_key ua cid).
Local Abbreviation req := (wire_request ua o).
Local Abbreviation attempt := (try_endpoint ua t (no_nonce_request cid) o).
Local Abbreviation loop := (fetch_loop ua t (no_nonce_request cid) o).

Lemma Request_eqb_eq a b : Request_eqb a b = true -> a = b.
Proof. unfold Request_eqb. now destruct (Request_eq_dec a b). Qed.

Lemma cache_lookup_head k body cache : cache_lookup k ((k, body) :: cache) = Some body.
Proof. cbn. unfold Request_eqb. now destruct (Request_eq_dec k k). Qed.

(** An attempt leaves the entries of the cache as they are. *)
Lemma try_endpoint_keeps_cache url w k v :
  cache_lookup k (w_cache w) = Some v ->
  cache_lookup k (w_cache (snd (attempt url w))) = Some v.
Proof.
  intros H.
  destruct (cache_lookup (key url) (w_cache w)) as [body|] eqn:Hc.
  - now rewrite (try_endpoint_hit ua t cid o url w Hc).
  - destruct (w_net w (w_sends w) (req url) t) as [e|body] eqn:Hn.
    + now rewrite (try_endpoint_transport_error ua t cid o url w Hc Hn).
    + rewrite (try_endpoint_fresh ua t cid o url w Hc Hn). cbn.
      destruct (Request_eqb k (cache_key ua cid url)) eqn:E; [|exact H].
      apply Request_eqb_eq in E. subst k. congruence.
Qed.

Lemma loop_keeps_cache urls : forall last_e w k v,
  cache_lookup k (w_cache w) = Some v ->
  cache_lookup k (w_cache (snd (loop urls last_e w))) = Some v.
Proof.
  induction urls as [|url urls IH]; intros last_e w k v H.
  - now destruct last_e.
  - change (loop (url :: urls) last_e w)
      with (try_except (attempt url) URLError (fun e => loop urls (Some e)) w).
    unfold try_except.
    pose proof (try_endpoint_keeps_cache url w k H) as H1.
    destruct (attempt url w) as [[e|r] w1]; cbn [snd] in H1; [|exact H1].
    destruct (isinstance_exn e URLError); [now apply IH | exact H1].
Qed.

(** Each attempt makes at most one exchange. *)
Lemma exchanges_app tr1 tr2 : exchanges (tr1 ++ tr2) = exchanges tr1 + exchanges tr2.
Proof. unfold exchanges. now rewrite filter_app, length_app. Qed.

Lemma attempts_exchanges tried new :
  attempts key req t tried new -> exchanges new <= List.length tried.
Proof.
  induction 1 as [|url urls block rest B _ IH]; [apply Nat.le_refl|].
  rewrite exchanges_app. cbn [List.length].
  assert (exchanges block <= 1).
  { destruct B as [->|[->|(body & ->)]]; cbn; lia. }
  lia.
Qed.

(** A transport error leaves the loop only at its end, after an attempt
    on every endpoint. *)
Lemma loop_transport_error urls : forall last_e w e w',
  loop urls last_e w = (inl e, w') ->
  isinstance_exn e URLError = true ->
  (urls = [] -> last_e = Some e) /\
  exists new, w_trace w' = (w_trace w ++ new)%list /\ attempts key req t urls new.
Proof.
  induction urls as [|url urls IH]; intros last_e w e w' E C.
  - destruct last_e as [e0|]; cbn in E.
    + injection E as -> ->. split; [reflexivity|].
      exists []. rewrite app_nil_r. split; [reflexivity | constructor].
    + injection E as <- _. discriminate C.
  - split; [discriminate|].
    change (loop (url :: urls) last_e w)
      with (try_except (attempt url) URLError (fun e => loop urls (Some e)) w) in E.
    unfold try_except in E.
    destruct (try_endpoint_block ua t cid o url w) as (block & T1 & B).
    destruct (attempt url w) as [[e1|r] w1]; cbn [snd] in T1; [|discriminate E].
    destruct (isinstance_exn e1 URLError) eqn:C1.
    + destruct (IH (Some e1) w1 e w' E C) as (_ & new & T & A).
      exists (block ++ new)%list. split; [now rewrite T, T1, app_assoc|].
      now constructor.
    + injection E as -> _. congruence.
Qed.

(** Where a response that the loop returns comes from. *)
Lemma loop_success urls : forall last_e w r w',
  loop urls last_e w = (inr r, w') ->
  exists url body,
    In url urls /\
    OCSPResponse_load body = inr r /\
    cache_lookup (key url) (w_cache w') = Some body /\
    ((exists tr, w_trace w' = (tr ++ [EvGet (key url)])%list) \/
     ((exists tr, w_trace w' = (tr ++ [EvPut (req url) (key url) body])%list) /\
      nonces_differ (nonce_value o) (resp_nonce_value r) = false)).
Proof.
  induction urls as [|url urls IH]; intros last_e w r w' E.
  - destruct last_e; discriminate E.
  - change (loop (url :: urls) last_e w)
      with (try_except (attempt url) URLError (fun e => loop urls (Some e)) w) in E.
    unfold try_except in E.
    assert (Next : forall e w1,
              (if isinstance_exn e URLError then loop urls (Some e) w1 else (inl e, w1))
                = (inr r, w') ->
              exists url0 body,
                In url0 (url :: urls) /\ OCSPResponse_load body = inr r /\
                cache_lookup (key url0) (w_cache w') = Some body /\
                ((exists tr, w_trace w' = (tr ++ [EvGet (key url0)])%list) \/
                 ((exists tr, w_trace w' = (tr ++ [EvPut (req url0) (key url0) body])%list) /\
                  nonces_differ (nonce_value o) (resp_nonce_value r) = false))).
    { intros e w1 E1. destruct (isinstance_exn e URLError); [|discriminate E1].
      destruct (IH (Some e) w1 r w' E1) as (u & body & Hin & L & Hc & Ht).
      exists u, body. split; [now right|]. now repeat split. }
    destruct (cache_lookup (key url) (w_cache w)) as [body|] eqn:Hc.
    + rewrite (try_endpoint_hit ua t cid o url w Hc) in E.
      destruct (OCSPResponse_load body) as [e|r0] eqn:L; [exact (Next _ _ E)|].
      injection E as -> <-. exists url, body. split; [now left|]. split; [exact L|].
      split; [exact Hc|]. left. exists (w_trace w ++ [EvHas (key url)])%list.
      cbn. now rewrite <- app_assoc.
    + destruct (w_net w (w_sends w) (req url) t) as [e|body] eqn:Hn.
      * rewrite (try_endpoint_transport_error ua t cid o url w Hc Hn) in E.
        exact (Next _ _ E).
      * rewrite (try_endpoint_fresh ua t cid o url w Hc Hn) in E.
        destruct (OCSPResponse_load body) as [e|r0] eqn:L; [exact (Next _ _ E)|].
        destruct (nonces_differ (nonce_value o) (resp_nonce_value r0)) eqn:V;
          [discriminate E|].
        injection E as -> <-. exists url, body. split; [now left|]. split; [exact L|].
        split; [apply cache_lookup_head|]. right. split; [|exact V].
        exists (w_trace w ++ [EvHas (key url); EvSend (req url) t])%list.
        cbn. now rewrite <- app_assoc.
Qed.

Lemma bodies_app tr1 tr2 : bodies (tr1 ++ tr2) = bodies tr1 + bodies tr2.
Proof. unfold bodies. now rewrite filter_app, length_app. Qed.

Lemma bodies_failed pre : bodies (flat_map (failed_attempt t key req) pre) = 0.
Proof. induction pre as [|u pre IH]; [reflexivity|]. cbn. exact IH. Qed.

(** When decoding never raises a transport error, the loop ends with the
    first attempt that is not a failed exchange. *)
Lemma loop_stops_at_body urls :
  (forall body e, OCSPResponse_load body = inl e -> isinstance_exn e URLError = false) ->
  forall last_e w,
  exists pre rest block,
    urls = (pre ++ rest)%list /\
    w_trace (snd (loop urls last_e w))
      = (w_trace w ++ flat_map (failed_attempt t key req) pre ++ block)%list /\
    (block = [] \/ exists url rest', rest = url :: rest' /\ attempt_block key req t url block).
Proof.
  intros Hload. induction urls as [|url urls IH]; intros last_e w.
  - exists [], [], []. cbn. split; [reflexivity|]. split; [|now left].
    destruct last_e; cbn; now rewrite app_nil_r.
  - change (loop (url :: urls) last_e w)
      with (try_except (attempt url) URLError (fun e => loop urls (Some e)) w).
    unfold try_except.
    assert (Stop : forall (res : exn + OCSPResponse) w1 block,
              w_trace w1 = (w_trace w ++ block)%list ->
              attempt_block key req t url block ->
              exists pre rest block0,
                url :: urls = (pre ++ rest)%list /\
                w_trace (snd (res, w1))
                  = (w_trace w ++ flat_map (failed_attempt t key req) pre ++ block0)%list /\
                (block0 = [] \/
                 exists url0 rest', rest = url0 :: rest' /\ attempt_block key req t url0 block0)).
    { intros res w1 block T B. exists [], (url :: urls), block.
      split; [reflexivity|]. split; [exact T|]. right. now exists url, urls. }
    destruct (cache_lookup (key url) (w_cache w)) as [body|] eqn:Hc.
    + rewrite (try_endpoint_hit ua t cid o url w Hc).
      destruct (OCSPResponse_load body) as [e|r] eqn:L.
      * rewrite (Hload _ _ L). eapply Stop; [reflexivity | now left].
      * eapply Stop; [reflexivity | now left].
    + destruct (w_net w (w_sends w) (req url) t) as [e|body] eqn:Hn.
      * rewrite (try_endpoint_transport_error ua t cid o url w Hc Hn).
        destruct (isinstance_exn e URLError); [|eapply Stop; [reflexivity | right; now left]].
        match goal with |- context [loop urls (Some e) ?w0] => set (w1 := w0) end.
        destruct (IH (Some e) w1) as (pre & rest & block & U & T & B).
        exists (url :: pre), rest, block. split; [now rewrite U|]. split; [|exact B].
        rewrite T. subst w1. cbn [w_trace flat_map]. now rewrite <- !app_assoc.
      * rewrite (try_endpoint_fresh ua t cid o url w Hc Hn).
        assert (B : attempt_block key req t url
                      [EvHas (key url); EvSend (req url) t; EvPut (req url) (key url) body]).
        { right; right. now exists body. }
        destruct (OCSPResponse_load body) as [e|r] eqn:L.
        -- rewrite (Hload _ _ L). apply (Stop _ _ _ (eq_refl : w_trace (after_fresh ua t cid o url body w) = _) B).
        -- destruct (nonces_differ _ _);
             apply (Stop _ _ _ (eq_refl : w_trace (after_fresh ua t cid o url body w) = _) B).
Qed.

End LoopFacts.

Section ServedAgain.

Context {I : Imports}.

Variables (ua : string) (t : Z) (cid : CertId) (o : OCSPRequest).
Variables (url : string) (post : list string) (body : bytes).

Hypothesis decoding_ends_loop : ends_loop (OCSPResponse_load body).

(** As [loop_served_from_cache], for a cached body whatever it decodes
    to, as long as that outcome ends the loop. *)
Lemma loop_served pre : forall last_e w,
  cache_lookup (cache_key ua cid url) (w_cache w) = Some body ->
  (forall u, In u pre -> u = url \/ cache_lookup (cache_key ua cid u) (w_cache w) = None) ->
  (forall j u, nth_error pre j = Some u ->
     exists e, w_net w (w_sends w + j) (wire_request ua o u) t = inl e /\
               isinstance_exn e URLError = true) ->
  exists w' new,
    fetch_loop ua t (no_nonce_request cid) o (pre ++ url :: post) last_e w
      = (OCSPResponse_load body, w') /\
    w_trace w' = (w_trace w ++ new
                    ++ [EvHas (cache_key ua cid url); EvGet (cache_key ua cid url)])%list /\
    exchanges new <= List.length pre /\
    bodies new = 0 /\
    w_cache w' = w_cache w.
Proof.
  assert (Hit : forall w (rest : list string),
            cache_lookup (cache_key ua cid url) (w_cache w) = Some body ->
            try_except (try_endpoint ua t (no_nonce_request cid) o url) URLError
              (fun e => fetch_loop ua t (no_nonce_request cid) o rest (Some e)) w
            = (OCSPResponse_load body,
               World (w_cache w) (w_net w) (w_sends w) (w_entropy w) (w_drawn w)
                 (w_trace w ++ [EvHas (cache_key ua cid url); EvGet (cache_key ua cid url)]))).
  { intros w rest H. unfold try_except.
    rewrite (try_endpoint_hit ua t cid o url w H).
    unfold ends_loop in decoding_ends_loop.
    destruct (OCSPResponse_load body) as [e|r]; [now rewrite decoding_ends_loop|reflexivity]. }
  induction pre as [|u pre IH]; intros last_e w H P N.
  - cbn [app fetch_loop]. rewrite (Hit w post H).
    eexists. exists []. split; [reflexivity|]. cbn. repeat split. lia.
  - cbn [app fetch_loop].
    destruct (P u (or_introl eq_refl)) as [->|Hu].
    + rewrite (Hit w (pre ++ url :: post)%list H).
      eexists. exists []. split; [reflexivity|]. cbn. repeat split. lia.
    + unfold try_except.
      destruct (N 0 u eq_refl) as (e & Hn & He).
      rewrite Nat.add_0_r in Hn.
      rewrite (try_endpoint_transport_error ua t cid o u w Hu Hn), He.
      match goal with |- context [fetch_loop _ _ _ _ _ _ ?w1] => set (w1' := w1) end.
      destruct (IH (Some e) w1') as (w' & new & E & T & X & B & C).
      * exact H.
      * intros v Hv. apply P. now right.
      * intros j v Hj. destruct (N (S j) v Hj) as (e' & Hn' & He').
        exists e'. split; [|exact He']. subst w1'. cbn. now rewrite <- Nat.add_succ_comm in Hn'.
      * exists w', (failed_attempt t (cache_key ua cid) (wire_request ua o) u ++ new)%list.
        split; [exact E|]. rewrite T, C. subst w1'. cbn [w_trace w_cache].
        rewrite <- !app_assoc. split; [reflexivity|].
        rewrite exchanges_app, bodies_app. cbn. repeat split; lia.
Qed.

End ServedAgain.

(** ** Further properties of [_get_response] and [fetch] *)

Section MoreOnFetch.

Context {I : Imports}.

(** Either the argument checks refuse the call, or the arguments are a
    subject, an issuer, a recognized algorithm, a flag and a user agent. *)
Lemma fetch_arguments cert issuer hash_algo nonce user_agent t w :
  (exists e, fetch cert issuer hash_algo nonce user_agent t w = (inl e, w)) \/
  (exists c i a b ua,
     cert = PyCert c /\ issuer = PyCert i /\ hash_algo = hash_algo_arg a /\
     nonce = PyBool b /\ user_agent = user_agent_arg ua).
Proof.
  destruct cert as [| | | | | |c]; try (left; eexists; reflexivity).
  destruct issuer as [| | | | | |i]; try (left; eexists; reflexivity).
  destruct hash_algo as [| | |s| | |]; try (left; eexists; reflexivity).
  destruct (String.eqb s "sha1") eqn:E1.
  - apply String.eqb_eq in E1. subst s.
    destruct nonce as [|b| | | | |]; try (left; eexists; reflexivity).
    destruct user_agent as [| | |s| | |]; try (left; eexists; reflexivity).
    + right. exists c, i, sha1, b, None. now repeat split.
    + right. exists c, i, sha1, b, (Some s). now repeat split.
  - destruct (String.eqb s "sha256") eqn:E2.
    + apply String.eqb_eq in E2. subst s.
      destruct nonce as [|b| | | | |]; try (left; eexists; reflexivity).
      destruct user_agent as [| | |s| | |]; try (left; eexists; reflexivity).
      * right. exists c, i, sha256, b, None. now repeat split.
      * right. exists c, i, sha256, b, (Some s). now repeat split.
    + left. eexists. unfold fetch, bind. cbn. rewrite E1, E2. reflexivity.
Qed.


(** X2.  An exception of the transport that is not a [URLError], a
    socket error for one, is not caught: [fetch] raises it from the
    endpoint where it happened, the endpoints after it are not tried and
    nothing is cached. *)
Theorem fetch_propagates_other_errors c i a b ua t w pre errs url post e :
  let cid := make_cert_id c i a in
  let key := cache_key (resolved_user_agent ua) cid in
  let req := wire_request (resolved_user_agent ua) (sent_request cid b w) in
  ocsp_urls c = (pre ++ url :: post)%list ->
  endpoints_down (w_cache w) (w_net w) t key req (w_sends w) pre errs ->
  cache_lookup (key url) (w_cache w) = None ->
  w_net w (w_sends w + List.length pre) (req url) t = inl e ->
  isinstance_exn e URLError = false ->
  exists w',
    fetch (PyCert c) (PyCert i) (hash_algo_arg a) (PyBool b) (user_agent_arg ua) t w
      = (inl e, w') /\
    w_trace w' = (w_trace w ++ flat_map (failed_attempt t key req) pre
                    ++ [EvHas (key url); EvSend (req url) t])%list /\
    w_cache w' = w_cache w.
Proof.
  intros cid key req U D H N C.
  rewrite (fetch_reaches c i a b ua t w pre (url :: post) errs U D).
  destruct (reached_io c i a b ua t w pre) as (Cr & Nr & Sr & Tr & _).
  cbn [fetch_loop]. unfold try_except.
  rewrite (@try_endpoint_transport_error _ (resolved_user_agent ua) t cid (sent_request cid b w)
             url (reached c i a b ua t w pre) e)
    by (rewrite ?Cr, ?Nr, ?Sr; assumption).
  rewrite C. eexists. split; [reflexivity|].
  cbn [w_trace w_cache]. rewrite Cr, Tr, <- app_assoc. now split.
Qed.

(** A call in a world whose cache holds [body] for [url], on top of a
    cache without the endpoints [pre], which are down: the outcome is
    that of decoding [body], read from the cache. *)
Lemma fetch_served c i a b ua t w pre url post body cache0 :
  let cid := make_cert_id c i a in
  let key := cache_key (resolved_user_agent ua) cid in
  let req := wire_request (resolved_user_agent ua) (sent_request cid b w) in
  ocsp_urls c = (pre ++ url :: post)%list ->
  ends_loop (OCSPResponse_load body) ->
  w_cache w = (key url, body) :: cache0 ->
  (forall u, In u pre -> cache_lookup (key u) cache0 = None) ->
  (forall j u, nth_error pre j = Some u ->
     exists e, w_net w (w_sends w + j) (req u) t = inl e /\ isinstance_exn e URLError = true) ->
  exists w' new,
    fetch (PyCert c) (PyCert i) (hash_algo_arg a) (PyBool b) (user_agent_arg ua) t w
      = (OCSPResponse_load body, w') /\
    w_trace w' = (w_trace w ++ new ++ [EvHas (key url); EvGet (key url)])%list /\
    exchanges new <= List.length pre /\
    bodies new = 0 /\
    w_cache w' = w_cache w.
Proof.
  intros cid key req U L C P N. rewrite fetch_typed, U. fold cid.
  destruct (after_nonce_io b w) as (Ca & Na & Sa & Ta & _).
  destruct (@loop_served _ (resolved_user_agent ua) t cid (sent_request cid b w)
              url post body L pre None (after_nonce b w))
    as (w' & new & E & T & X & B & K).
  - rewrite Ca, C. apply cache_lookup_head.
  - intros u Hu. rewrite Ca, C. fold key. cbn [cache_lookup].
    destruct (Request_eqb (key u) (key url)) eqn:Q.
    + left. apply Request_eqb_eq in Q. unfold key in Q. exact (cache_key_url Q).
    + right. now apply P.
  - intros j u Hj. rewrite Na, Sa. now apply N.
  - exists w', new. rewrite E, T, K, Ca, Ta. now repeat split.
Qed.


Lemma attempts_blocks key req t tried new :
  attempts key req t tried new ->
  exists blocks, new = List.concat blocks /\ Forall2 (attempt_block key req t) tried blocks.
Proof.
  induction 1 as [|url urls block rest B _ (blocks & -> & F)].
  - exists []. split; [reflexivity | constructor].
  - exists (block :: blocks). split; [reflexivity | now constructor].
Qed.

(** X4.  The trace of a call splits into one block of operations per
    endpoint of a prefix of the certificate's list, in order, and the
    block of an endpoint holds at most one exchange: a POST to that
    endpoint with the timeout of the call, the three headers and the
    request of the call as body. *)
Theorem fetch_exchanges_bounded c i a b ua t w :
  let cid := make_cert_id c i a in
  let key := cache_key (resolved_user_agent ua) cid in
  let req := wire_request (resolved_user_agent ua) (sent_request cid b w) in
  let w' := snd (fetch (PyCert c) (PyCert i) (hash_algo_arg a) (PyBool b) (user_agent_arg ua) t w) in
  exists tried post blocks,
    ocsp_urls c = (tried ++ post)%list /\
    w_trace w' = (w_trace w ++ List.concat blocks)%list /\
    Forall2 (fun url block =>
      attempt_block key req t url block /\
      exchanges block <= 1 /\
      forall rq t', In (EvSend rq t') block ->
        t' = t /\
        rq = mkRequest "POST" url (OCSPRequest_dump (sent_request cid b w))
               [("Accept", "application/ocsp-response");
                ("User-Agent", resolved_user_agent ua);
                ("Content-Type", "application/ocsp-request")]) tried blocks.
Proof.
  intros cid key req w'.
  destruct (fetch_attempts c i a b ua t w) as (tried & post & new & U & T & A & _).
  destruct (attempts_blocks A) as (blocks & -> & F).
  exists tried, post, blocks. split; [exact U|]. split; [exact T|].
  eapply Forall2_impl; [|exact F]. intros url block B. split; [exact B|].
  destruct B as [->|[->|(body & ->)]].
  - split; [cbn; lia|]. intros rq t' [E|[E|[]]]; discriminate E.
  - split; [cbn; lia|]. intros rq t' [E|[E|[]]]; [discriminate E|].
    injection E as <- <-. now split.
  - split; [cbn; lia|]. intros rq t' [E|[E|[E|[]]]]; try discriminate E.
    injection E as <- <-. now split.
Qed.

(** X5.  Whatever the arguments, a call leaves every entry of the cache
    in place: [fetch] stores a response only under a key that was
    missing. *)
Theorem fetch_keeps_cache_entries cert issuer hash_algo nonce user_agent t w k v :
  cache_lookup k (w_cache w) = Some v ->
  cache_lookup k (w_cache (snd (fetch cert issuer hash_algo nonce user_agent t w))) = Some v.
Proof.
  intros H.
  destruct (fetch_arguments cert issuer hash_algo nonce user_agent t w)
    as [(e & E)|(c & i & a & b & ua & -> & -> & -> & -> & ->)].
  - now rewrite E.
  - rewrite fetch_typed. apply loop_keeps_cache.
    destruct (after_nonce_io b w) as (C & _). now rewrite C.
Qed.

(** X6.  A response that [fetch] returns decodes a body that the cache
    then holds under the key of one of the endpoints. *)
Theorem fetch_result_is_cached c i a b ua t w r w' :
  fetch (PyCert c) (PyCert i) (hash_algo_arg a) (PyBool b) (user_agent_arg ua) t w = (inr r, w') ->
  exists url body,
    In url (ocsp_urls c) /\
    cache_lookup (cache_key (resolved_user_agent ua) (make_cert_id c i a) url) (w_cache w')
      = Some body /\
    OCSPResponse_load body = inr r.
Proof.
  rewrite fetch_typed. intros E.
  destruct (loop_success _ _ _ _ _ _ _ E) as (url & body & Hin & L & Hc & _).
  now exists url, body.
Qed.

(** X7.  With the nonce flag set, a response that [fetch] returns was
    read from the cache, or it carries no nonce, or it carries the nonce
    of the request. *)
Theorem fetch_returns_no_foreign_nonce c i a ua t w r w' :
  fetch (PyCert c) (PyCert i) (hash_algo_arg a) (PyBool true) (user_agent_arg ua) t w
    = (inr r, w') ->
  (exists tr k, w_trace w' = (tr ++ [EvGet k])%list) \/
  resp_nonce_value r = None \/
  resp_nonce_value r = Some (OctetString_dump (entropy w 16)).
Proof.
  rewrite fetch_typed. intros E.
  destruct (loop_success _ _ _ _ _ _ _ E) as (url & body & _ & _ & _ & [(tr & T)|(_ & V)]).
  - left. now exists tr, (cache_key (resolved_user_agent ua) (make_cert_id c i a) url).
  - right.
    change (nonce_value (sent_request (make_cert_id c i a) true w))
      with (Some (OctetString_dump (entropy w 16))) in V.
    unfold nonces_differ, bytes_eqb in V.
    destruct (resp_nonce_value r) as [m|]; [right|now left].
    destruct (bytes_eq_dec (OctetString_dump (entropy w 16)) m) as [->|]; [reflexivity|discriminate V].
Qed.

(** X8.  When [fetch] raises a transport error, the list of endpoints was
    not empty and the call has made an attempt on every endpoint, in
    order. *)
Theorem fetch_transport_error_after_all_endpoints c i a b ua t w e w' :
  let cid := make_cert_id c i a in
  fetch (PyCert c) (PyCert i) (hash_algo_arg a) (PyBool b) (user_agent_arg ua) t w = (inl e, w') ->
  isinstance_exn e URLError = true ->
  ocsp_urls c <> [] /\
  exists new,
    w_trace w' = (w_trace w ++ new)%list /\
    attempts (cache_key (resolved_user_agent ua) cid)
      (wire_request (resolved_user_agent ua) (sent_request cid b w)) t (ocsp_urls c) new.
Proof.
  intros cid. rewrite fetch_typed. fold cid. intros E C.
  destruct (loop_transport_error _ _ _ _ _ _ _ E C) as (Z & new & T & A).
  split; [intros Hn; now specialize (Z Hn)|].
  destruct (after_nonce_io b w) as (_ & _ & _ & Ta & _).
  exists new. now rewrite T, Ta.
Qed.

(** X9.  When the decoder never raises a transport error, the trace of a
    call is a run of failed exchanges, one per endpoint in order, and
    then at most one further attempt: a call reads or stores at most one
    response body, and does so last. *)
Theorem fetch_stops_at_first_body c i a b ua t w :
  let cid := make_cert_id c i a in
  let key := cache_key (resolved_user_agent ua) cid in
  let req := wire_request (resolved_user_agent ua) (sent_request cid b w) in
  let w' := snd (fetch (PyCert c) (PyCert i) (hash_algo_arg a) (PyBool b) (user_agent_arg ua) t w) in
  (forall body e, OCSPResponse_load body = inl e -> isinstance_exn e URLError = false) ->
  exists pre rest block,
    ocsp_urls c = (pre ++ rest)%list /\
    w_trace w' = (w_trace w ++ flat_map (failed_attempt t key req) pre ++ block)%list /\
    (block = [] \/ exists url rest', rest = url :: rest' /\ attempt_block key req t url block) /\
    bodies (flat_map (failed_attempt t key req) pre ++ block) <= 1.
Proof.
  intros cid key req w' Hload. subst w'. rewrite fetch_typed. fold cid.
  destruct (loop_stops_at_body (resolved_user_agent ua) t cid (sent_request cid b w)
              (ocsp_urls c) Hload None (after_nonce b w)) as (pre & rest & block & U & T & B).
  destruct (after_nonce_io b w) as (_ & _ & _ & Ta & _).
  exists pre, rest, block. rewrite T, Ta. repeat split; try assumption.
  unfold key, req. rewrite bodies_app, bodies_failed.
  destruct B as [->|(url & rest' & _ & [->|[->|(body & ->)]])]; cbn; lia.
Qed.


End MoreOnFetch.

(** ** Worked scenarios *)

(** Length octets: short form below 128, long form from there on. *)
Example der_length_forms :
  der_length 16 = [x10] /\ der_length 127 = [x7f] /\
  der_length 128 = [x81; x80] /\ der_length 300 = [x82; x01; x2c].
Proof. repeat split. Qed.

(** The nonce of a request built in a toy world. *)
Example toy_nonce_is_the_request_nonce :
  nonce_value (sent_request (make_cert_id (I := toy) (subject_with []) ca sha1) true (toy_world []))
  = Some toy_nonce.
Proof. reflexivity. Qed.

(** Two endpoints fail and the third answers. *)
Example three_endpoints :
  toy_fetch ["http://a"; "http://b"; "http://c"] true (toy_world []) =
  (inr {| resp_nonce_value := Some toy_nonce; resp_rest := [xff] |},
   World [(toy_key "http://c", echo toy_nonce)] toy_net 3 (fun _ => x2a) 16
     [EvHas (toy_key "http://a"); EvSend (toy_req true "http://a") 10;
      EvHas (toy_key "http://b"); EvSend (toy_req true "http://b") 10;
      EvHas (toy_key "http://c"); EvSend (toy_req true "http://c") 10;
      EvPut (toy_req true "http://c") (toy_key "http://c") (echo toy_nonce)]).
Proof. reflexivity. Qed.

(** The nonce that is compared is the encoding 04 10 ... of the random
    bytes: a response that carries the 16 bytes alone does not pass. *)
Example bare_random_bytes_do_not_match :
  fst (toy_fetch ["http://r"] true (toy_world2 [])) =
  inl (Exn OCSPValidationError nonce_mismatch_message).
Proof. reflexivity. Qed.

(** A wrong nonce at the first endpoint: the second one is never asked. *)
Example wrong_nonce_first :
  toy_fetch ["http://e"; "http://c"] true (toy_world []) =
  (inl (Exn OCSPValidationError
     "Unable to verify OCSP response since the request and response nonces do not match"),
   World [(toy_key "http://e", echo other_nonce)] toy_net 1 (fun _ => x2a) 16
     [EvHas (toy_key "http://e"); EvSend (toy_req true "http://e") 10;
      EvPut (toy_req true "http://e") (toy_key "http://e") (echo other_nonce)]).
Proof. reflexivity. Qed.

(** The digest algorithm "md5" is refused before anything happens. *)
Lemma fetch_rejects_bad_arguments_witness :
  exists e,
    fetch (I := toy) (PyCert (subject_with ["http://c"])) (PyCert ca) (PyStr "md5")
      (PyBool true) PyNone 10 (toy_world []) = (inl e, toy_world []) /\
    InvalidArgument e.
Proof.
  apply (@fetch_rejects_bad_arguments toy).
  right; right; left. reflexivity.
Defined.

(** A certificate without endpoints. *)
Lemma fetch_without_endpoints_witness :
  exists w',
    toy_fetch [] true (toy_world []) =
      (inl (Exn TypeError "exceptions must derive from BaseException"), w') /\
    w_trace w' = [] /\ w_cache w' = [] /\ w_sends w' = 0.
Proof.
  exact (@fetch_without_endpoints toy (subject_with []) ca sha1 true None 10
           (toy_world []) eq_refl).
Defined.

(** Both endpoints down: the error of the second is raised.  Two down
    and a third that answers: its response is returned.  One down and a
    socket error at the second: that error is raised. *)
Lemma fetch_fails_over_witness :
  fst (toy_fetch ["http://a"; "http://b"] true (toy_world [])) = inl unavailable /\
  fst (toy_fetch ["http://a"; "http://b"; "http://c"] true (toy_world [])) =
    inr {| resp_nonce_value := Some toy_nonce; resp_rest := [xff] |} /\
  fst (toy_fetch ["http://a"; "http://s"; "http://c"] true (toy_world2 [])) =
    inl connection_reset.
Proof.
  split; [|split].
  - destruct (proj2 (@fetch_fails_over toy (subject_with ["http://a"; "http://b"]) ca sha1 true
                       None 10 (toy_world []))
                ["http://a"; "http://b"] [timed_out; unavailable])
      as (H & _).
    { vm_compute. repeat split. }
    destruct (H unavailable eq_refl eq_refl) as (w' & E & _).
    exact (f_equal fst E).
  - destruct (proj2 (@fetch_fails_over toy
                       (subject_with ["http://a"; "http://b"; "http://c"]) ca sha1 true
                       None 10 (toy_world []))
                ["http://a"; "http://b"] [timed_out; unavailable])
      as (_ & H & _).
    { vm_compute. repeat split. }
    destruct (H "http://c" [] (echo toy_nonce)
                {| resp_nonce_value := Some toy_nonce; resp_rest := [xff] |}
                eq_refl eq_refl eq_refl eq_refl eq_refl) as (w' & E & _).
    exact (f_equal fst E).
  - destruct (proj2 (@fetch_fails_over toy
                       (subject_with ["http://a"; "http://s"; "http://c"]) ca sha1 true
                       None 10 (toy_world2 []))
                ["http://a"] [timed_out])
      as (_ & _ & H).
    { vm_compute. repeat split. }
    destruct (H "http://s" ["http://c"] connection_reset eq_refl eq_refl eq_refl eq_refl)
      as (w' & E & _).
    exact (f_equal fst E).
Defined.

(** A socket error is a failure of the transport, and the loop does not
    go on after it: at http://s the call fails, while going on would
    return the response of http://c. *)
Lemma socket_error_does_not_fall_back : ~ transport_failures_fall_back.
Proof.
  intros H.
  specialize (H toy (subject_with ["http://s"; "http://c"]) ca sha1 true None 10%Z
                (toy_world2 []) "http://s" ["http://c"] connection_reset
                eq_refl eq_refl eq_refl eq_refl).
  vm_compute in H. discriminate H.
Qed.

(** The cache holds a response for http://c whose nonce is not the one
    of the call: it is returned all the same. *)
Lemma fetch_returns_cached_response_witness :
  fst (toy_fetch ["http://a"; "http://c"] true
         (toy_world [(toy_key "http://c", echo other_nonce)])) =
  inr {| resp_nonce_value := Some other_nonce; resp_rest := [xff] |}.
Proof.
  destruct (@fetch_returns_cached_response toy (subject_with ["http://a"; "http://c"])
              ca sha1 true None 10 (toy_world [(toy_key "http://c", echo other_nonce)])
              ["http://a"] [timed_out] "http://c" [] (echo other_nonce)
              {| resp_nonce_value := Some other_nonce; resp_rest := [xff] |} eq_refl)
    as (w' & E & _).
  - vm_compute. repeat split.
  - reflexivity.
  - reflexivity.
  - exact (f_equal fst E).
Defined.

(** http://e echoes a wrong nonce: the call fails although http://c
    comes next. *)
Lemma fetch_nonce_mismatch_raises_witness :
  fst (toy_fetch ["http://a"; "http://e"; "http://c"] true (toy_world [])) =
  inl (Exn OCSPValidationError nonce_mismatch_message).
Proof.
  destruct (@fetch_nonce_mismatch_raises toy
              (subject_with ["http://a"; "http://e"; "http://c"]) ca sha1 None 10
              (toy_world []) ["http://a"] [timed_out] "http://e" ["http://c"]
              (echo other_nonce)
              {| resp_nonce_value := Some other_nonce; resp_rest := [xff] |}
              other_nonce eq_refl)
    as (w' & E & _).
  - vm_compute. repeat split.
  - reflexivity.
  - reflexivity.
  - reflexivity.
  - reflexivity.
  - discriminate.
  - exact (f_equal fst E).
Defined.

(** The loop does not go on after a nonce mismatch: at http://e the call
    fails, while going on would return the response of http://c. *)
Lemma nonce_mismatch_does_not_fall_back : ~ nonce_mismatch_falls_back.
Proof.
  intros H.
  specialize (H toy (subject_with ["http://e"; "http://c"]) ca sha1 None 10%Z (toy_world [])
                "http://e" ["http://c"] (echo other_nonce)
                {| resp_nonce_value := Some other_nonce; resp_rest := [xff] |}
                other_nonce eq_refl eq_refl eq_refl eq_refl eq_refl).
  assert (N : other_nonce <> OctetString_dump (entropy (toy_world []) 16)) by discriminate.
  specialize (H N). vm_compute in H. discriminate H.
Qed.

(** http://d answers without a nonce: the response is returned although
    the request carried one. *)
Lemma fetch_tolerates_absent_nonce_witness :
  fst (toy_fetch ["http://d"] true (toy_world [])) =
  inr {| resp_nonce_value := None; resp_rest := [xff] |}.
Proof.
  destruct (@fetch_tolerates_absent_nonce toy (subject_with ["http://d"]) ca sha1 true
              None 10 (toy_world []) [] [] "http://d" [] [x00; xff]
              {| resp_nonce_value := None; resp_rest := [xff] |}
              eq_refl Logic.I eq_refl eq_refl eq_refl) as (H & _).
  exact (H (or_intror eq_refl)).
Defined.


(** *** Scenarios for the further properties *)


(** http://s fails with a socket error: http://c is not asked. *)
Lemma fetch_propagates_other_errors_witness :
  exists w',
    toy_fetch ["http://a"; "http://s"; "http://c"] true (toy_world2 [])
      = (inl connection_reset, w') /\
    w_trace w' = [EvHas (toy_key "http://a"); EvSend (toy_req true "http://a") 10;
                  EvHas (toy_key "http://s"); EvSend (toy_req true "http://s") 10] /\
    w_cache w' = [].
Proof.
  apply (@fetch_propagates_other_errors toy
           (subject_with ["http://a"; "http://s"; "http://c"]) ca sha1 true None 10
           (toy_world2 []) ["http://a"] [timed_out] "http://s" ["http://c"] connection_reset
           eq_refl).
  - vm_compute. repeat split.
  - reflexivity.
  - reflexivity.
  - reflexivity.
Defined.


(** The entry for http://c is still there after a call that stored the
    response of http://d. *)
Lemma fetch_keeps_cache_entries_witness :
  let w := toy_world [(toy_key "http://c", echo toy_nonce)] in
  cache_lookup (toy_key "http://c") (w_cache (snd (toy_fetch ["http://d"] true w)))
    = Some (echo toy_nonce) /\
  cache_lookup (toy_key "http://d") (w_cache (snd (toy_fetch ["http://d"] true w)))
    = Some [x00; xff].
Proof.
  split; [|reflexivity].
  exact (@fetch_keeps_cache_entries toy (PyCert (subject_with ["http://d"])) (PyCert ca)
           (PyStr "sha1") (PyBool true) PyNone 10
           (toy_world [(toy_key "http://c", echo toy_nonce)])
           (toy_key "http://c") (echo toy_nonce) eq_refl).
Defined.

(** The response of the third endpoint is in the cache after the call. *)
Lemma fetch_result_is_cached_witness :
  exists url body,
    In url ["http://a"; "http://b"; "http://c"] /\
    cache_lookup (toy_key url)
      [(toy_key "http://c", echo toy_nonce)] = Some body /\
    toy_load body = inr {| resp_nonce_value := Some toy_nonce; resp_rest := [xff] |}.
Proof.
  exact (@fetch_result_is_cached toy (subject_with ["http://a"; "http://b"; "http://c"]) ca sha1
           true None 10 (toy_world []) _ _ three_endpoints).
Defined.

(** The response of the third endpoint carries the nonce of the call. *)
Lemma fetch_returns_no_foreign_nonce_witness :
  (exists tr k,
     [EvHas (toy_key "http://a"); EvSend (toy_req true "http://a") 10;
      EvHas (toy_key "http://b"); EvSend (toy_req true "http://b") 10;
      EvHas (toy_key "http://c"); EvSend (toy_req true "http://c") 10;
      EvPut (toy_req true "http://c") (toy_key "http://c") (echo toy_nonce)]
     = (tr ++ [EvGet k])%list) \/
  Some toy_nonce = None \/
  Some toy_nonce = Some (OctetString_dump (entropy (toy_world []) 16)).
Proof.
  exact (@fetch_returns_no_foreign_nonce toy (subject_with ["http://a"; "http://b"; "http://c"])
           ca sha1 None 10 (toy_world []) _ _ three_endpoints).
Defined.

(** Both endpoints are down: the error raised is a transport error and
    both were attempted. *)
Lemma fetch_transport_error_after_all_endpoints_witness :
  ocsp_urls (subject_with ["http://a"; "http://b"]) <> [] /\
  exists new,
    w_trace (snd (toy_fetch ["http://a"; "http://b"] true (toy_world []))) = ([] ++ new)%list /\
    attempts toy_key (toy_req true) 10 ["http://a"; "http://b"] new.
Proof.
  apply (@fetch_transport_error_after_all_endpoints toy (subject_with ["http://a"; "http://b"])
           ca sha1 true None 10 (toy_world []) unavailable
           (snd (toy_fetch ["http://a"; "http://b"] true (toy_world [])))).
  - reflexivity.
  - reflexivity.
Defined.

Lemma toy_load_errors body e : toy_load body = inl e -> isinstance_exn e URLError = false.
Proof.
  destruct body as [|b0 [|len rest]]; [now intros [= <-]| |]; destruct b0;
    first [discriminate | now intros [= <-]].
Qed.

(** One failed exchange, then the attempt that stores the response. *)
Lemma fetch_stops_at_first_body_witness :
  exists pre rest block,
    ["http://a"; "http://c"] = (pre ++ rest)%list /\
    w_trace (snd (toy_fetch ["http://a"; "http://c"] true (toy_world [])))
      = ([] ++ flat_map (failed_attempt 10 toy_key (toy_req true)) pre ++ block)%list /\
    (block = [] \/
     exists url rest', rest = url :: rest' /\ attempt_block toy_key (toy_req true) 10 url block) /\
    bodies (flat_map (failed_attempt 10 toy_key (toy_req true)) pre ++ block) <= 1.
Proof.
  exact (@fetch_stops_at_first_body toy (subject_with ["http://a"; "http://c"]) ca sha1 true
           None 10 (toy_world []) toy_load_errors).
Defined.

